(** * Website signal extraction: a shallow embedding of [backend/scraper.py]

The development follows the class [WebsiteScraper]: URL normalisation,
the single fetch, and the four extractors (SEO, speed, content, UX) that
read the parsed document.  Python values are modelled as follows.

- [str] is [string]; a character is a code point below 256, and text
  with other characters is outside the model.
- [int] is [Z]; a [float] is a binary64 value kept as mantissa and
  exponent, with every operation rounded to nearest, ties to even.
- a [dict] with string keys is a [gmap string value].
- an exception is the [Raise] branch of [result].
- the parsed document ([BeautifulSoup]) is a list of [node] trees, and
  the parser is a function that may fail, because the constructor can
  raise; the scraper object is a record threaded through the methods,
  because [get_content_data] prunes the shared tree in place. *)

From Stdlib Require Import ZArith Lia Ascii String.
From stdpp Require Import base strings gmap list.

Set Warnings "-register-all".
#[local] Open Scope string_scope.
#[local] Open Scope Z_scope.

(** ** Python strings *)

Module PyStr.

Definition code (c : ascii) : N := N_of_ascii c.

Definition between (lo hi : N) (c : ascii) : bool :=
  ((lo <=? code c) && (code c <=? hi))%N.

(** [str.isspace] on one character; also the set stripped by [str.strip()]
    and the separators of [str.split()] and of the pattern [\S+]. *)
Definition isspace (c : ascii) : bool :=
  between 9 13 c || between 28 32 c || between 133 133 c || between 160 160 c.

(** The ASCII letters, [[a-zA-Z]]. *)
Definition isletter (c : ascii) : bool :=
  between 65 90 c || between 97 122 c.

(** The pattern [\w] on a [str]: alphanumeric characters and underscore. *)
Definition isword (c : ascii) : bool :=
  between 48 57 c || between 65 90 c || between 95 95 c || between 97 122 c
  || between 170 170 c || between 178 179 c || between 181 181 c
  || between 185 186 c || between 188 190 c || between 192 214 c
  || between 216 246 c || between 248 255 c.

Definition lower_char (c : ascii) : ascii :=
  if between 65 90 c || between 192 214 c || between 216 222 c
  then ascii_of_N (code c + 32) else c.

(** [s.lower()] *)
Fixpoint lower (s : string) : string :=
  match s with
  | "" => ""
  | String c r => String (lower_char c) (lower r)
  end.

(** [len(s)] *)
Definition len (s : string) : Z := Z.of_nat (String.length s).

(** [s.startswith(p)] *)
Definition startswith (p s : string) : bool := String.prefix p s.

(** [s.endswith(c)] for a one-character suffix. *)
Fixpoint endswith_char (c : ascii) (s : string) : bool :=
  match s with
  | "" => false
  | String a "" => bool_decide (a = c)
  | String _ r => endswith_char c r
  end.

(** [sub in s] *)
Fixpoint contains (sub s : string) : bool :=
  String.prefix sub s ||
  match s with
  | "" => false
  | String _ r => contains sub r
  end.

(** [any(ind in s for ind in inds)] *)
Definition contains_any (inds : list string) (s : string) : bool :=
  existsb (fun ind => contains ind s) inds.

(** [s.lstrip(chars)] and [s.rstrip(chars)], the set given as a predicate. *)
Fixpoint lstrip (p : ascii -> bool) (s : string) : string :=
  match s with
  | "" => ""
  | String c r => if p c then lstrip p r else s
  end.

Fixpoint rstrip (p : ascii -> bool) (s : string) : string :=
  match s with
  | "" => ""
  | String c r =>
      match rstrip p r with
      | "" => if p c then "" else String c ""
      | r' => String c r'
      end
  end.

(** [s.strip()] *)
Definition strip (s : string) : string := rstrip isspace (lstrip isspace s).

(** The maximal runs of characters that are not separators, in order:
    [s.split()] when [sep] is [isspace]. *)
Fixpoint fields (sep : ascii -> bool) (s : string) : list string :=
  match s with
  | "" => []
  | String c r =>
      if sep c then fields sep r
      else match r with
           | "" => [String c ""]
           | String c' _ =>
               if sep c' then String c "" :: fields sep r
               else match fields sep r with
                    | w :: ws => String c w :: ws
                    | [] => [String c ""]
                    end
           end
  end.

Definition split (s : string) : list string := fields isspace s.

Fixpoint all_chars (p : ascii -> bool) (s : string) : bool :=
  match s with
  | "" => true
  | String c r => p c && all_chars p r
  end.

(** [s.replace(c, "")] for the characters selected by [p]. *)
Fixpoint remove_chars (p : ascii -> bool) (s : string) : string :=
  match s with
  | "" => ""
  | String c r => if p c then remove_chars p r else String c (remove_chars p r)
  end.

(** [s[:n]] *)
Definition take (n : nat) (s : string) : string := String.substring 0 n s.

(** [s[n:]] *)
Fixpoint drop (n : nat) (s : string) : string :=
  match n, s with
  | S n', String _ r => drop n' r
  | _, _ => s
  end.

(** [c * k] for a character [c] *)
Fixpoint repeat_char (c : ascii) (k : nat) : string :=
  match k with
  | O => ""
  | S k' => String c (repeat_char c k')
  end.

(** [sep.join(parts)] *)
Fixpoint join (sep : string) (parts : list string) : string :=
  match parts with
  | [] => ""
  | [p] => p
  | p :: ps => p ++ sep ++ join sep ps
  end.

(** [re.findall(r'\b[a-zA-Z]{2,}\b', s)].  A match starts and ends at a
    word boundary and holds letters only, so it is a whole maximal run of
    [\w] characters; the matches are the runs of two or more characters
    that hold ASCII letters only. *)
Definition findall_words (s : string) : list string :=
  filter (fun w => (2 <= String.length w)%nat /\ all_chars isletter w)
         (fields (fun c => negb (isword c)) s).

End PyStr.

(** ** [WebsiteScraper._normalize_url] *)

Definition is_slash (c : ascii) : bool := bool_decide (c = "/"%char).

(** The test [url.startswith(('http://', 'https://'))]. *)
Definition has_scheme (url : string) : bool :=
  PyStr.startswith "http://" url || PyStr.startswith "https://" url.

Definition _normalize_url (url : string) : string :=
  let url := if negb (has_scheme url) then "https://" ++ url else url in
  PyStr.rstrip is_slash url.

(** ** Exceptions *)

Inductive exn := ZeroDivisionError | ValueError.

Inductive result (A : Type) :=
| Ok (a : A)
| Raise (e : exn).
Arguments Ok {A} a.
Arguments Raise {A} e.

#[global] Instance result_ret : MRet result := fun _ a => Ok a.
#[global] Instance result_bind : MBind result := fun _ _ f r =>
  match r with
  | Ok a => f a
  | Raise e => Raise e
  end.

(** ** Python floats *)

Module PyFloat.

(** The finite binary64 value [fnum * 2 ^ fexp].  The exponent is not
    bounded: quotients and products of element counts stay far from the
    subnormal and overflow ranges of the format. *)
Record float := mk { fnum : Z; fexp : Z }.

Definition pow2 (k : Z) : Z := 2 ^ Z.max 0 k.

(** The integer nearest to [n / d], ties to the even one ([0 < d]). *)
Definition rne_div (n d : Z) : Z :=
  let q := n / d in
  let r := n mod d in
  if 2 * r <? d then q
  else if d <? 2 * r then q + 1
  else if Z.even q then q else q + 1.

(** The binary64 value nearest to [n / d] for [0 < n] and [0 < d]: the
    exponent [e] puts [n / (d * 2 ^ e)] in [[2 ^ 52, 2 ^ 53)], and the
    53-bit mantissa is that quotient rounded. *)
Definition round_pos (n d : Z) : float :=
  let e0 := Z.log2 n - Z.log2 d - 53 in
  let e := if 2 ^ 53 * (d * pow2 e0) <=? n * pow2 (- e0) then e0 + 1 else e0 in
  mk (rne_div (n * pow2 (- e)) (d * pow2 e)) e.

Definition of_ratio (n d : Z) : float :=
  match n with
  | 0 => mk 0 0
  | Zpos _ => round_pos n d
  | Zneg _ => let f := round_pos (- n) d in mk (- fnum f) (fexp f)
  end.

(** [float(z)] *)
Definition of_int (z : Z) : float := of_ratio z 1.

(** [a / b] on two [int]s. *)
Definition truediv (a b : Z) : result float :=
  if b =? 0 then Raise ZeroDivisionError
  else Ok (of_ratio (a * Z.sgn b) (Z.abs b)).

(** [x * y] *)
Definition mul (x y : float) : float :=
  let e := fexp x + fexp y in
  of_ratio (fnum x * fnum y * pow2 e) (pow2 (- e)).

(** [round(x)], an [int]. *)
Definition round (x : float) : Z :=
  rne_div (fnum x * pow2 (fexp x)) (pow2 (- fexp x)).

(** [int(x)], truncation toward zero. *)
Definition trunc (x : float) : Z :=
  Z.quot (fnum x * pow2 (fexp x)) (pow2 (- fexp x)).

(** [round(x, 2)]: the value is rounded to two decimals, ties to even,
    and the decimal is converted back to the nearest float. *)
Definition round2 (x : float) : float :=
  of_ratio (rne_div (fnum x * 100 * pow2 (fexp x)) (pow2 (- fexp x))) 100.

(** [round(a / b * k)] and [int((a / b) * k)], as the extractors write
    them. *)
Definition round_ratio (a b k : Z) : result Z :=
  q ← truediv a b; mret (round (mul q (of_int k))).

Definition trunc_ratio (a b k : Z) : result Z :=
  q ← truediv a b; mret (trunc (mul q (of_int k))).

End PyFloat.

(** ** The parsed document (BeautifulSoup)

Only what the scraper calls is modelled: [find], [find_all],
[get_text], [Tag.get] and [decompose]. *)

Module Bs4.

(** [Text] is a [NavigableString]; [Hidden] is a string that [get_text]
    leaves out (a comment, a doctype, and the like); [Elem] is a [Tag]
    with its attribute dict and its contents. *)
Inductive node :=
| Text (s : string)
| Hidden (s : string)
| Elem (name : string) (attrs : gmap string string) (contents : list node).

(** The contents of the [BeautifulSoup] object. *)
Definition soup := list node.

Record tag := Tag {
  name : string;
  attrs : gmap string string;
  contents : list node
}.

(** Every tag below a node, in document order. *)
Fixpoint tags_of (n : node) : list tag :=
  match n with
  | Elem nm at_ cs => Tag nm at_ cs :: flat_map tags_of cs
  | _ => []
  end.

Definition tags (doc : soup) : list tag := flat_map tags_of doc.

Fixpoint strings_of (n : node) : list string :=
  match n with
  | Text s => [s]
  | Hidden _ => []
  | Elem _ _ cs => flat_map strings_of cs
  end.

(** [x.get_text(separator=sep, strip=strip)] on the contents [cs] of [x]. *)
Definition get_text (sep : string) (strip : bool) (cs : list node) : string :=
  let ss := flat_map strings_of cs in
  PyStr.join sep
    (if strip
     then List.filter (fun s => negb (String.eqb s "")) (map PyStr.strip ss)
     else ss).

(** [t.get(key)] and [t.get(key, '')] *)
Definition get (t : tag) (key : string) : option string := attrs t !! key.
Definition get_or_empty (t : tag) (key : string) : string :=
  default "" (get t key).

(** What an attribute is matched against: a [str], [True], or one of the
    compiled patterns of the scraper, [re.compile(r'^...')] on a literal
    and [re.compile(literal, re.I)]. *)
Inductive matcher :=
| Exact (s : string)
| Present
| StartsWith (s : string)
| SearchNoCase (s : string).

Definition matches_str (m : matcher) (v : string) : bool :=
  match m with
  | Exact s => String.eqb v s
  | Present => true
  | StartsWith s => PyStr.startswith s v
  | SearchNoCase s => PyStr.contains (PyStr.lower s) (PyStr.lower v)
  end.

(** The attributes the HTML tree builder stores as lists of
    whitespace-separated values. *)
Definition multi_valued (tag_name key : string) : bool :=
  bool_decide (key ∈ ["class"; "accesskey"; "dropzone"])
  || bool_decide (tag_name ∈ ["a"; "link"] ∧ key ∈ ["rel"; "rev"])
  || bool_decide (tag_name ∈ ["td"; "th"] ∧ key = "headers")
  || bool_decide (tag_name = "form" ∧ key = "accept-charset")
  || bool_decide (tag_name = "object" ∧ key = "archive")
  || bool_decide (tag_name = "area" ∧ key = "rel")
  || bool_decide (tag_name = "icon" ∧ key = "sizes")
  || bool_decide (tag_name = "iframe" ∧ key = "sandbox")
  || bool_decide (tag_name = "output" ∧ key = "for").

(** A missing attribute matches nothing.  A multi-valued one matches when
    one of its values does, or when the values joined by a space do. *)
Definition attr_matches (t : tag) (key : string) (m : matcher) : bool :=
  match get t key with
  | None => false
  | Some v =>
      if multi_valued (name t) key
      then let vs := PyStr.split v in
           existsb (matches_str m) vs || matches_str m (PyStr.join " " vs)
      else matches_str m v
  end.

Definition tag_matches (names : list string)
    (crit : list (string * matcher)) (t : tag) : bool :=
  (bool_decide (names = []) || bool_decide (name t ∈ names))
  && forallb (fun km => attr_matches t km.1 km.2) crit.

(** [doc.find_all(names, attrs=crit)]; no name restriction when [names]
    is empty. *)
Definition find_all (names : list string) (crit : list (string * matcher))
    (doc : soup) : list tag :=
  List.filter (tag_matches names crit) (tags doc).

(** [doc.find(names, attrs=crit)] *)
Definition find (names : list string) (crit : list (string * matcher))
    (doc : soup) : option tag :=
  head (find_all names crit doc).

(** The tree after [for t in doc(names): t.decompose()]: every tag with
    one of the names is gone, with all that it holds. *)
Fixpoint decompose_node (names : list string) (n : node) : list node :=
  match n with
  | Elem nm at_ cs =>
      if bool_decide (nm ∈ names) then []
      else [Elem nm at_ (flat_map (decompose_node names) cs)]
  | _ => [n]
  end.

Definition decompose_all (names : list string) (doc : soup) : soup :=
  flat_map (decompose_node names) doc.

End Bs4.

(** ** [urllib.parse.urlparse(url).netloc] *)

Module UrlParse.

Definition c0_control_or_space (c : ascii) : bool := (PyStr.code c <=? 32)%N.

Definition unsafe_byte (c : ascii) : bool :=
  bool_decide (PyStr.code c ∈ [9; 13; 10]%N).

Definition scheme_char (c : ascii) : bool :=
  PyStr.isletter c || PyStr.between 48 57 c
  || bool_decide (c ∈ ["+"; "-"; "."]%char).

(** The text before the first character that satisfies [p], and the text
    from that character on. *)
Fixpoint break_at (p : ascii -> bool) (s : string) : string * string :=
  match s with
  | "" => ("", "")
  | String c r =>
      if p c then ("", s)
      else let '(a, b) := break_at p r in (String c a, b)
  end.

(** The url once a leading scheme and its colon are taken off. *)
Definition drop_scheme (url : string) : string :=
  match break_at (fun c => bool_decide (c = ":"%char)) url with
  | (String c0 _ as sch, String _ rest) =>
      if PyStr.isletter c0 && PyStr.all_chars scheme_char sch
      then rest else url
  | _ => url
  end.

Definition netloc_delim (c : ascii) : bool :=
  bool_decide (c ∈ ["/"; "?"; "#"]%char).

Definition has_char (c : ascii) (s : string) : bool :=
  PyStr.contains (String c "") s.

(** [urlsplit]: the url loses leading control characters and spaces and
    all tabs and newlines; after the scheme, a leading [//] opens the
    network location, which runs to the first of [/], [?] and [#].  A
    bracket without its partner raises [ValueError]; a bracketed host is
    checked by [valid_bracketed], the IP literal check of the
    interpreter.  The last check, [_checknetloc], looks at a location that
    is not ASCII, and raises when its NFKC form holds one of [/?#@:] that
    the location itself does not hold; no character below code point 256
    has such a form, so the check never raises on the strings of this
    model.  A url with a wider character is outside the model: what is
    proved about parsing is stated for urls on which [netloc] returns, or
    for ASCII network locations. *)
Definition netloc (valid_bracketed : string -> bool) (url : string)
    : result string :=
  let url := PyStr.lstrip c0_control_or_space url in
  let url := PyStr.remove_chars unsafe_byte url in
  match drop_scheme url with
  | String "/" (String "/" rest) =>
      let loc := (break_at netloc_delim rest).1 in
      match has_char "[" loc, has_char "]" loc with
      | false, false => Ok loc
      | true, true => if valid_bracketed loc then Ok loc else Raise ValueError
      | _, _ => Raise ValueError
      end
  | _ => Ok ""
  end.

(** [urlparse(url).scheme]: the text before the first colon, in lower
    case, when it starts with a letter and holds scheme characters only. *)
Definition scheme (url : string) : string :=
  let url := PyStr.lstrip c0_control_or_space url in
  let url := PyStr.remove_chars unsafe_byte url in
  match break_at (fun c => bool_decide (c = ":"%char)) url with
  | (String c0 _ as sch, String _ _) =>
      if PyStr.isletter c0 && PyStr.all_chars scheme_char sch
      then PyStr.lower sch else ""
  | _ => ""
  end.

(** [s.rpartition(c)[2]]: the text after the last [c], all of [s] when it
    holds none. *)
Fixpoint after_last (c : ascii) (s : string) : string :=
  match s with
  | "" => ""
  | String a r =>
      if has_char c r then after_last c r
      else if bool_decide (a = c) then r else s
  end.

(** [urlparse(url).hostname], from the network location of the url: the
    text after the last [@], up to the first colon, or between the square
    brackets when one opens; the name is lowered up to a [%].  [None] for
    an empty name. *)
Definition hostname (loc : string) : option string :=
  let hostinfo := after_last "@" loc in
  let name :=
    match break_at (fun c => bool_decide (c = "["%char)) hostinfo with
    | (_, String _ bracketed) =>
        (break_at (fun c => bool_decide (c = "]"%char)) bracketed).1
    | (_, "") => (break_at (fun c => bool_decide (c = ":"%char)) hostinfo).1
    end in
  match name with
  | "" => None
  | _ =>
      let '(h, zone) := break_at (fun c => bool_decide (c = "%"%char)) name in
      Some (PyStr.lower h ++ zone)
  end.

End UrlParse.

(** ** The HTTP response ([requests.Response]) *)

Module Requests.

(** [headers] is keyed by the lower-cased header name, as
    [CaseInsensitiveDict] stores it. *)
Record response := Response {
  status_code : Z;
  text : string;
  content : list Byte.byte;
  headers : gmap string string
}.

(** The truth value of a response, [Response.ok]: no 4xx or 5xx status. *)
Definition ok (r : response) : bool :=
  negb ((400 <=? status_code r) && (status_code r <? 600)).

(** [r.headers.get(key, '')] *)
Definition header (r : response) (key : string) : string :=
  default "" (headers r !! PyStr.lower key).

(** What [requests.get] does for the scraper: it raises, or it returns a
    response after [elapsed] seconds on the clock. *)
Inductive outcome :=
| Raises
| Returns (r : response) (elapsed : PyFloat.float).

End Requests.

(** ** Values of the result dicts *)

Inductive number :=
| NInt (z : Z)
| NFloat (f : PyFloat.float).

Inductive value :=
| VStr (s : string)
| VInt (z : Z)
| VFloat (f : PyFloat.float)
| VBool (b : bool)
| VList (l : list value)
| VDict (d : gmap string value).

Definition VNum (n : number) : value :=
  match n with
  | NInt z => VInt z
  | NFloat f => VFloat f
  end.

(** [round(x, 2)]: an [int] is returned as it is. *)
Definition round_number2 (n : number) : number :=
  match n with
  | NInt z => NInt z
  | NFloat f => NFloat (PyFloat.round2 f)
  end.

(** [len(l)] *)
Definition llen {A} (l : list A) : Z := Z.of_nat (length l).

(** [sum(1 for x in l if p(x))] *)
Definition count_if {A} (p : A -> bool) (l : list A) : Z :=
  llen (List.filter p l).

(** The literal [input[type="button"]] and its [submit] sibling, as
    [get_ux_data] passes them to [find_all]. *)
Definition input_selector (kind : string) : string :=
  "input[type=" ++ String "034"%char kind ++ String "034"%char "]".

(** ** The scraper object *)

Record scraper := Scraper {
  url : string;
  timeout : Z;
  soup : option Bs4.soup;
  response : option Requests.response;
  load_time : number
}.

Definition with_soup (s : scraper) (d : option Bs4.soup) : scraper :=
  Scraper (url s) (timeout s) d (response s) (load_time s).
Definition with_response (s : scraper) (r : option Requests.response) : scraper :=
  Scraper (url s) (timeout s) (soup s) r (load_time s).
Definition with_load_time (s : scraper) (t : number) : scraper :=
  Scraper (url s) (timeout s) (soup s) (response s) t.

(** [WebsiteScraper.__init__] *)
Definition new_scraper (u : string) (tmo : Z) : scraper :=
  Scraper (_normalize_url u) tmo None None (NInt 0).

(** [if self.response:] *)
Definition response_truthy (s : scraper) : bool :=
  match response s with
  | Some r => Requests.ok r
  | None => false
  end.

(** Methods that change the object are state transformers that may raise. *)
Definition M (A : Type) : Type := scraper -> scraper * result A.

Definition ret {A} (a : A) : M A := fun s => (s, Ok a).
Definition bind {A B} (m : M A) (k : A -> M B) : M B := fun s =>
  match m s with
  | (s', Ok a) => k a s'
  | (s', Raise e) => (s', Raise e)
  end.
Definition lift {A} (f : scraper -> result A) : M A := fun s => (s, f s).

Notation "'let*' x ':=' m 'in' k" := (bind m (fun x => k))
  (at level 10, x name, m at level 100, k at level 200).

Section Scraper.

(** [BeautifulSoup(text, 'html.parser')]: the tree, or [None] when the
    constructor raises, as it does on markup that [html.parser] rejects
    (the body [<![x]>] is one). *)
Variable html_parser : string -> option Bs4.soup.
(** [str(soup)], the serialised markup. *)
Variable soup_str : Bs4.soup -> string.
(** The check [urlsplit] runs on a bracketed host. *)
Variable valid_bracketed : string -> bool.

Definition netloc := UrlParse.netloc valid_bracketed.

(** *** [fetch]

The body is one [try] block whose handler returns [False]: the request
may raise before anything is stored, and the parser may raise after the
response and the load time are stored and before [self.soup] is
assigned. *)

Definition fetch (net : Requests.outcome) : M bool := fun s =>
  match net with
  | Requests.Raises => (s, Ok false)
  | Requests.Returns r elapsed =>
      let s := with_response s (Some r) in
      let s := with_load_time s (NFloat elapsed) in
      if Requests.status_code r =? 200
      then match html_parser (Requests.text r) with
           | Some doc => (with_soup s (Some doc), Ok true)
           | None => (s, Ok false)
           end
      else (s, Ok false)
  end.

(** *** [get_seo_data] *)

Definition seo_defaults : gmap string value :=
  list_to_map
    [("title", VStr ""); ("title_length", VInt 0);
     ("meta_description", VStr ""); ("meta_description_length", VInt 0);
     ("h1_count", VInt 0); ("h1_texts", VList []); ("h2_count", VInt 0);
     ("meta_keywords", VStr ""); ("canonical_url", VStr "");
     ("has_robots_meta", VBool false); ("og_tags", VDict ∅);
     ("internal_links", VInt 0); ("external_links", VInt 0);
     ("image_alt_ratio", VInt 0); ("structured_data", VBool false)].

(** The loop over the anchors; [acc] holds the internal and the external
    count. *)
Fixpoint count_links (base_domain : string) (hrefs : list string)
    (acc : Z * Z) : result (Z * Z) :=
  match hrefs with
  | [] => Ok acc
  | href :: rest =>
      if has_scheme href then
        link_domain ← netloc href;
        count_links base_domain rest
          (if PyStr.contains base_domain link_domain
           then (acc.1 + 1, acc.2) else (acc.1, acc.2 + 1))
      else if PyStr.startswith "/" href then
        count_links base_domain rest (acc.1 + 1, acc.2)
      else count_links base_domain rest acc
  end.

Definition nonblank_alt (img : Bs4.tag) : bool :=
  negb (String.eqb (PyStr.strip (Bs4.get_or_empty img "alt")) "").

Definition seo_of (u : string) (doc : Bs4.soup) : result (gmap string value) :=
  let data := seo_defaults in
  let data :=
    match Bs4.find ["title"] [] doc with
    | Some title_tag =>
        let title := Bs4.get_text "" true (Bs4.contents title_tag) in
        <["title_length" := VInt (PyStr.len title)]> (<["title" := VStr title]> data)
    | None => data
    end in
  let data :=
    match Bs4.find ["meta"] [("name", Bs4.Exact "description")] doc with
    | Some meta_desc =>
        let d := Bs4.get_or_empty meta_desc "content" in
        <["meta_description_length" := VInt (PyStr.len d)]>
          (<["meta_description" := VStr d]> data)
    | None => data
    end in
  let data :=
    match Bs4.find ["meta"] [("name", Bs4.Exact "keywords")] doc with
    | Some meta_keywords =>
        <["meta_keywords" := VStr (Bs4.get_or_empty meta_keywords "content")]> data
    | None => data
    end in
  let h1_tags := Bs4.find_all ["h1"] [] doc in
  let data := <["h1_count" := VInt (llen h1_tags)]> data in
  let data :=
    <["h1_texts" :=
        VList (map (fun h1 => VStr (PyStr.take 100
                                (Bs4.get_text "" true (Bs4.contents h1))))
                   (take 3 h1_tags))]> data in
  let data := <["h2_count" := VInt (llen (Bs4.find_all ["h2"] [] doc))]> data in
  let data :=
    match Bs4.find ["link"] [("rel", Bs4.Exact "canonical")] doc with
    | Some canonical =>
        <["canonical_url" := VStr (Bs4.get_or_empty canonical "href")]> data
    | None => data
    end in
  let data :=
    <["has_robots_meta" :=
        VBool (bool_decide (is_Some
          (Bs4.find ["meta"] [("name", Bs4.Exact "robots")] doc)))]> data in
  let og_tags := Bs4.find_all ["meta"] [("property", Bs4.StartsWith "og:")] doc in
  let data :=
    <["og_tags" :=
        VDict (foldl (fun d tag_ =>
                        <[Bs4.get_or_empty tag_ "property" :=
                            VStr (Bs4.get_or_empty tag_ "content")]> d)
                     ∅ og_tags)]> data in
  base_domain ← netloc u;
  let all_links := Bs4.find_all ["a"] [("href", Bs4.Present)] doc in
  links ← count_links base_domain
             (map (fun link => Bs4.get_or_empty link "href") all_links) (0, 0);
  let data := <["external_links" := VInt links.2]>
                (<["internal_links" := VInt links.1]> data) in
  let images := Bs4.find_all ["img"] [] doc in
  data ← match images with
         | [] => mret data
         | _ =>
             let images_with_alt := count_if nonblank_alt images in
             r ← PyFloat.round_ratio images_with_alt (llen images) 100;
             mret (<["image_alt_ratio" := VInt r]> data)
         end;
  let structured_data :=
    Bs4.find_all ["script"] [("type", Bs4.Exact "application/ld+json")] doc in
  mret (<["structured_data" := VBool (0 <? llen structured_data)]> data).

Definition get_seo_data (s : scraper) : result (gmap string value) :=
  match soup s with
  | None => Ok ∅
  | Some doc => seo_of (url s) doc
  end.

(** *** [get_speed_data] *)

Definition speed_defaults (t : number) : gmap string value :=
  list_to_map
    [("load_time", VNum (round_number2 t)); ("page_size_kb", VInt 0);
     ("total_requests", VInt 1); ("css_files", VInt 0); ("js_files", VInt 0);
     ("image_count", VInt 0); ("has_compression", VBool false);
     ("has_caching", VBool false)].

Definition get_speed_data (s : scraper) : result (gmap string value) :=
  let data := speed_defaults (load_time s) in
  data ← match response s with
         | Some r =>
             if Requests.ok r then
               kb ← PyFloat.truediv (llen (Requests.content r)) 1024;
               let data := <["page_size_kb" := VFloat (PyFloat.round2 kb)]> data in
               let data :=
                 <["has_compression" :=
                     VBool (PyStr.contains "gzip"
                              (PyStr.lower (Requests.header r "Content-Encoding")))]>
                   data in
               let cache_control := Requests.header r "Cache-Control" in
               mret (<["has_caching" :=
                         VBool (negb (String.eqb cache_control "")
                                && negb (PyStr.contains "no-cache"
                                           (PyStr.lower cache_control)))]> data)
             else mret data
         | None => mret data
         end;
  match soup s with
  | Some doc =>
      let data :=
        <["css_files" :=
            VInt (llen (Bs4.find_all ["link"] [("rel", Bs4.Exact "stylesheet")] doc))]>
          data in
      let data :=
        <["js_files" :=
            VInt (llen (Bs4.find_all ["script"] [("src", Bs4.Present)] doc))]> data in
      mret (<["image_count" := VInt (llen (Bs4.find_all ["img"] [] doc))]> data)
  | None => mret data
  end.

(** *** [get_content_data] *)

Definition content_defaults : gmap string value :=
  list_to_map
    [("word_count", VInt 0); ("paragraph_count", VInt 0);
     ("unique_words", VInt 0); ("avg_paragraph_length", VInt 0);
     ("has_blog", VBool false); ("has_faq", VBool false);
     ("content_to_code_ratio", VInt 0); ("reading_level", VStr "medium")].

Definition pruned_tags : list string :=
  ["script"; "style"; "nav"; "header"; "footer"].

(** The body of [get_content_data] after the pruning loop, on the pruned
    tree [doc]. *)
Definition content_of (s : scraper) (doc : Bs4.soup)
    : result (gmap string value) :=
  let data := content_defaults in
  let text := Bs4.get_text " " true doc in
  let words := PyStr.findall_words (PyStr.lower text) in
  let data := <["word_count" := VInt (llen words)]> data in
  let data :=
    <["unique_words" := VInt (Z.of_nat (size (list_to_set words : gset string)))]>
      data in
  let paragraphs := Bs4.find_all ["p"] [] doc in
  let data := <["paragraph_count" := VInt (llen paragraphs)]> data in
  data ← match paragraphs with
         | [] => mret data
         | _ =>
             let total_length :=
               foldr Z.add 0
                 (map (fun p => llen (PyStr.split
                                        (Bs4.get_text "" true (Bs4.contents p))))
                      paragraphs) in
             q ← PyFloat.truediv total_length (llen paragraphs);
             mret (<["avg_paragraph_length" := VInt (PyFloat.round q)]> data)
         end;
  let page_text :=
    match response s with
    | Some r => if Requests.ok r then PyStr.lower (Requests.text r) else ""
    | None => ""
    end in
  let data :=
    <["has_blog" :=
        VBool (PyStr.contains_any ["blog"; "article"; "post"; "news"] page_text)]>
      data in
  let data :=
    <["has_faq" :=
        VBool (PyStr.contains_any ["faq"; "frequently asked"; "questions"] page_text)]>
      data in
  match response s with
  | Some r =>
      if Requests.ok r then
        let html_length := PyStr.len (Requests.text r) in
        let text_length := PyStr.len text in
        if 0 <? html_length then
          r ← PyFloat.round_ratio text_length html_length 100;
          mret (<["content_to_code_ratio" := VInt r]> data)
        else mret data
      else mret data
  | None => mret data
  end.

(** The pruning loop works on [self.soup] itself: the object keeps the
    pruned tree. *)
Definition get_content_data : M (gmap string value) := fun s =>
  match soup s with
  | None => (s, Ok ∅)
  | Some doc =>
      let doc := Bs4.decompose_all pruned_tags doc in
      let s := with_soup s (Some doc) in
      (s, content_of s doc)
  end.

(** *** [get_ux_data] *)

Definition ux_defaults : gmap string value :=
  list_to_map
    [("has_viewport_meta", VBool false); ("has_favicon", VBool false);
     ("form_count", VInt 0); ("button_count", VInt 0);
     ("navigation_elements", VInt 0); ("has_search", VBool false);
     ("has_social_links", VBool false); ("has_contact_info", VBool false);
     ("mobile_friendly_indicators", VInt 0); ("accessibility_score", VInt 0)].

Definition button_names : list string :=
  ["button"; input_selector "button"; input_selector "submit"].

Definition social_domains : list string :=
  ["facebook"; "twitter"; "linkedin"; "instagram"; "youtube"; "tiktok"].

Definition contact_indicators : list string :=
  ["contact"; "email"; "phone"; "tel:"; "mailto:"].

Definition responsive_classes : list string :=
  ["container"; "row"; "col-"; "flex"; "grid"; "responsive"; "mobile"].

Definition mobile_score (has_viewport_meta : bool) (doc : Bs4.soup) : Z :=
  let mobile_score := 0 in
  let mobile_score :=
    if has_viewport_meta then mobile_score + 30 else mobile_score in
  if PyStr.contains_any responsive_classes (soup_str doc)
  then mobile_score + 40 else mobile_score.

(** [img.get('alt')] is true when the attribute is there and not empty. *)
Definition truthy_alt (img : Bs4.tag) : bool :=
  match Bs4.get img "alt" with
  | Some v => negb (String.eqb v "")
  | None => false
  end.

(** The four additions to [accessibility_score], in source order. *)
Definition alt_points (doc : Bs4.soup) : result Z :=
  match Bs4.find_all ["img"] [] doc with
  | [] => mret 0
  | images => PyFloat.trunc_ratio (count_if truthy_alt images) (llen images) 30
  end.

Definition h1_points (doc : Bs4.soup) : Z :=
  match Bs4.find ["h1"] [] doc with
  | Some _ => 20
  | None => 0
  end.

Definition label_points (doc : Bs4.soup) : result Z :=
  let labels := Bs4.find_all ["label"] [] doc in
  let inputs := Bs4.find_all ["input"] [] doc in
  match inputs, labels with
  | _ :: _, _ :: _ =>
      p ← PyFloat.trunc_ratio (llen labels) (llen inputs) 30;
      mret (Z.min 30 p)
  | _, _ => mret 0
  end.

Definition aria_points (doc : Bs4.soup) : Z :=
  match Bs4.find_all [] [("aria-label", Bs4.Present)] doc with
  | [] => 0
  | _ => 20
  end.

Definition accessibility_score (doc : Bs4.soup) : result Z :=
  let accessibility_score := 0 in
  a ← alt_points doc;
  let accessibility_score := accessibility_score + a in
  let accessibility_score := accessibility_score + h1_points doc in
  l ← label_points doc;
  let accessibility_score := accessibility_score + l in
  let accessibility_score := accessibility_score + aria_points doc in
  mret (Z.min 100 accessibility_score).

Definition ux_of (doc : Bs4.soup) : result (gmap string value) :=
  let data := ux_defaults in
  let viewport := Bs4.find ["meta"] [("name", Bs4.Exact "viewport")] doc in
  let has_viewport_meta := bool_decide (is_Some viewport) in
  let data := <["has_viewport_meta" := VBool has_viewport_meta]> data in
  let favicon := Bs4.find ["link"] [("rel", Bs4.SearchNoCase "icon")] doc in
  let data := <["has_favicon" := VBool (bool_decide (is_Some favicon))]> data in
  let data := <["form_count" := VInt (llen (Bs4.find_all ["form"] [] doc))]> data in
  let data :=
    <["button_count" := VInt (llen (Bs4.find_all button_names [] doc))]> data in
  let data :=
    <["navigation_elements" := VInt (llen (Bs4.find_all ["nav"] [] doc))]> data in
  let search_inputs := Bs4.find_all ["input"] [("type", Bs4.Exact "search")] doc in
  let search_forms := Bs4.find_all [] [("class", Bs4.SearchNoCase "search")] doc in
  let data :=
    <["has_search" :=
        VBool ((0 <? llen search_inputs) || (0 <? llen search_forms))]> data in
  let all_links := Bs4.find_all ["a"] [("href", Bs4.Present)] doc in
  let data :=
    if existsb (fun link =>
                  PyStr.contains_any social_domains
                    (PyStr.lower (Bs4.get_or_empty link "href"))) all_links
    then <["has_social_links" := VBool true]> data else data in
  let page_text := PyStr.lower (Bs4.get_text "" false doc) in
  let data :=
    <["has_contact_info" :=
        VBool (existsb (fun ind => PyStr.contains ind page_text
                                   || PyStr.contains ind (soup_str doc))
                       contact_indicators)]> data in
  let data :=
    <["mobile_friendly_indicators" := VInt (mobile_score has_viewport_meta doc)]>
      data in
  score ← accessibility_score doc;
  mret (<["accessibility_score" := VInt score]> data).

Definition get_ux_data (s : scraper) : result (gmap string value) :=
  match soup s with
  | None => Ok ∅
  | Some doc => ux_of doc
  end.

(** *** [scrape_all] *)

Definition error_record (u : string) : gmap string value :=
  list_to_map
    [("url", VStr u); ("error", VStr "Failed to fetch website");
     ("seo", VDict ∅); ("speed", VDict ∅); ("content", VDict ∅);
     ("ux", VDict ∅)].

(** [self.soup.title.get_text(strip=True) if self.soup.title else ''] *)
Definition page_title (s : scraper) : string :=
  match soup s with
  | Some doc =>
      match Bs4.find ["title"] [] doc with
      | Some t => Bs4.get_text "" true (Bs4.contents t)
      | None => ""
      end
  | None => ""
  end.

(** The entries of the result dict are evaluated in the order they are
    written: [seo], [speed], [content], then [ux]. *)
Definition scrape_all (net : Requests.outcome)
    : M (bool * gmap string value) :=
  let* fetched := fetch net in
  if negb fetched
  then lift (fun s => Ok (false, error_record (url s)))
  else
    let* u := lift (fun s => Ok (url s)) in
    let* title := lift (fun s => Ok (page_title s)) in
    let* seo := lift get_seo_data in
    let* speed := lift get_speed_data in
    let* content := get_content_data in
    let* ux := lift get_ux_data in
    ret (true,
         list_to_map
           [("url", VStr u); ("title", VStr title); ("seo", VDict seo);
            ("speed", VDict speed); ("content", VDict content);
            ("ux", VDict ux)]).

End Scraper.

(** [scrape_website] *)
Definition scrape_website html_parser soup_str valid_bracketed
    (u : string) (net : Requests.outcome)
    : scraper * result (bool * gmap string value) :=
  scrape_all html_parser soup_str valid_bracketed net (new_scraper u 15).

(** ** Vocabulary of the properties *)

(** The url without its [http://] or [https://] prefix, when it has one. *)
Definition host_part (u : string) : string :=
  if PyStr.startswith "http://" u then PyStr.drop 7 u
  else if PyStr.startswith "https://" u then PyStr.drop 8 u
  else u.

(** The string [_normalize_url] hands to [rstrip]. *)
Definition with_scheme (u : string) : string :=
  (if has_scheme u then "" else "https://") ++ u.

Section Links.

Variable valid_bracketed : string -> bool.

(** The network location of a link, [urlparse(href).netloc]: the host
    with the userinfo before it and the port after it, when the link has
    them.  Empty when the link does not parse. *)
Definition netloc_of (href : string) : string :=
  match netloc valid_bracketed href with
  | Ok loc => loc
  | Raise _ => ""
  end.

(** The host of a link, [urlparse(href).hostname]. *)
Definition hostname_of (href : string) : option string :=
  match netloc valid_bracketed href with
  | Ok loc => UrlParse.hostname loc
  | Raise _ => None
  end.

(** [urlparse(href)] returns: it does not raise. *)
Definition parses (href : string) : bool :=
  match netloc valid_bracketed href with
  | Ok _ => true
  | Raise _ => false
  end.

(** A link that starts with [http://] or [https://] and whose network
    location holds [base], the network location of the page, as a
    substring; or a link that starts with a slash. *)
Definition is_internal (base href : string) : bool :=
  if has_scheme href then PyStr.contains base (netloc_of href)
  else PyStr.startswith "/" href.

(** A link that starts with [http://] or [https://] and whose network
    location does not hold [base]. *)
Definition is_external (base href : string) : bool :=
  has_scheme href && negb (PyStr.contains base (netloc_of href)).

End Links.

(** The [href] of every anchor that has one, in document order. *)
Definition anchor_hrefs (doc : Bs4.soup) : list string :=
  map (fun link => Bs4.get_or_empty link "href")
      (Bs4.find_all ["a"] [("href", Bs4.Present)] doc).

(** An [alt] attribute that is there and holds a character that is not
    white space. *)
Definition has_nonblank_alt (img : Bs4.tag) : bool :=
  match Bs4.get img "alt" with
  | Some v => negb (PyStr.all_chars PyStr.isspace v)
  | None => false
  end.

(** An [alt] attribute that is there and is not the empty string. *)
Definition has_nonempty_alt (img : Bs4.tag) : bool :=
  match Bs4.get img "alt" with
  | Some v => negb (String.eqb v "")
  | None => false
  end.

(** Lookup of a signal inside one of the four signal sets of a result. *)
Definition signal (set key : string) (res : gmap string value) : option value :=
  match res !! set with
  | Some (VDict d) => d !! key
  | _ => None
  end.

(** The eight keys of the speed signals. *)
Definition speed_keys : gset string :=
  list_to_set ["load_time"; "page_size_kb"; "total_requests"; "css_files";
               "js_files"; "image_count"; "has_compression"; "has_caching"].

(** ** Example pages *)

Module Examples.
Import Bs4.

(** The void elements of the HTML tree builder. *)
Definition void_elements : list string :=
  ["area"; "base"; "br"; "col"; "embed"; "hr"; "img"; "input"; "keygen";
   "link"; "menuitem"; "meta"; "param"; "source"; "track"; "wbr"].

Definition quote : string := String "034"%char "".

(** The markup of a tree that holds no character in need of escaping. *)
Fixpoint markup (n : node) : string :=
  match n with
  | Text s => s
  | Hidden s => "<!--" ++ s ++ "-->"
  | Elem nm at_ cs =>
      let attrs :=
        PyStr.join ""
          (map (fun kv => " " ++ kv.1 ++ "=" ++ quote ++ kv.2 ++ quote)
               (map_to_list at_)) in
      if bool_decide (nm ∈ void_elements)
      then "<" ++ nm ++ attrs ++ "/>"
      else "<" ++ nm ++ attrs ++ ">"
           ++ PyStr.join "" (map markup cs) ++ "</" ++ nm ++ ">"
  end.

Definition soup_markup (doc : soup) : string := PyStr.join "" (map markup doc).

(** A parser that knows one page. *)
Definition parser_for (html : string) (doc : soup) : string -> option soup :=
  fun text => Some (if String.eqb text html then doc else []).

(** A bracketed host check that lets every host through. *)
Definition any_host (_ : string) : bool := true.

Definition half_second : PyFloat.float := PyFloat.mk 1 (-1).

Definition reply (status : Z) (html : string) : Requests.outcome :=
  Requests.Returns
    (Requests.Response status html (String.list_byte_of_string html) ∅)
    half_second.

(** [<nav>Menu</nav><p>one two three</p>] *)
Definition nav_html : string := "<nav>Menu</nav><p>one two three</p>".
Definition nav_page : soup :=
  [Elem "nav" ∅ [Text "Menu"]; Elem "p" ∅ [Text "one two three"]].

(** [<button>Go</button><input type=submit><input type=button>] *)
Definition button_page : soup :=
  [Elem "button" ∅ [Text "Go"];
   Elem "input" {["type" := "submit"]} [];
   Elem "input" {["type" := "button"]} []].

(** [<a href=http://[>x</a>], an anchor whose host opens a bracket that
    is never closed. *)
Definition bracket_html : string := "<a href=http://[>x</a>".
Definition bracket_page : soup :=
  [Elem "a" {["href" := "http://["]} [Text "x"]].

(** [<img alt=' '>], an image whose [alt] is one space. *)
Definition blank_alt_page : soup := [Elem "img" {["alt" := " "]} []].

(** [<img alt=logo><a href=/about>About</a><a href=https://example.com/x>X</a>
    <a href=https://other.org/>O</a><a href=about.html>R</a>] *)
Definition links_page : soup :=
  [Elem "img" {["alt" := "logo"]} [];
   Elem "a" {["href" := "/about"]} [Text "About"];
   Elem "a" {["href" := "https://example.com/x"]} [Text "X"];
   Elem "a" {["href" := "https://other.org/"]} [Text "O"];
   Elem "a" {["href" := "about.html"]} [Text "R"]].

(** Eight anchors, the markup being one line:
    [<a href=/about>A</a><a href=https://example.com/x>X</a>
    <a href=https://shop.example.com:8080/>S</a><a href=https://other.org/>O</a>
    <a href=about.html>R</a><a href=mailto:a@other.org>M</a>
    <a href=ftp://example.com/f>F</a><a href=HTTPS://example.com/>U</a>] *)
Definition mixed_links_page : soup :=
  [Elem "a" {["href" := "/about"]} [Text "A"];
   Elem "a" {["href" := "https://example.com/x"]} [Text "X"];
   Elem "a" {["href" := "https://shop.example.com:8080/"]} [Text "S"];
   Elem "a" {["href" := "https://other.org/"]} [Text "O"];
   Elem "a" {["href" := "about.html"]} [Text "R"];
   Elem "a" {["href" := "mailto:a@other.org"]} [Text "M"];
   Elem "a" {["href" := "ftp://example.com/f"]} [Text "F"];
   Elem "a" {["href" := "HTTPS://example.com/"]} [Text "U"]].

(** [<a href=ftp://other.org/f>F</a>
    <a href=https://example.com@evil.org/login>L</a>]: two absolute links
    to other hosts, the second with [example.com] as its userinfo. *)
Definition absolute_links_page : soup :=
  [Elem "a" {["href" := "ftp://other.org/f"]} [Text "F"];
   Elem "a" {["href" := "https://example.com@evil.org/login"]} [Text "L"]].

(** A scraper for [https://example.com] that holds the tree [doc]. *)
Definition scraper_on (doc : soup) : scraper :=
  Scraper "https://example.com" 15 (Some doc) None (NInt 0).

(** The SEO signals of [links_page]. *)
Definition links_seo : gmap string value :=
  match get_seo_data any_host (scraper_on links_page) with
  | Ok data => data
  | Raise _ => ∅
  end.

End Examples.

(** ** Vocabulary of the further properties *)

(** The keys of the SEO, content and UX signals. *)
Definition seo_keys : gset string :=
  list_to_set ["title"; "title_length"; "meta_description";
               "meta_description_length"; "h1_count"; "h1_texts"; "h2_count";
               "meta_keywords"; "canonical_url"; "has_robots_meta"; "og_tags";
               "internal_links"; "external_links"; "image_alt_ratio";
               "structured_data"].

Definition content_keys : gset string :=
  list_to_set ["word_count"; "paragraph_count"; "unique_words";
               "avg_paragraph_length"; "has_blog"; "has_faq";
               "content_to_code_ratio"; "reading_level"].

Definition ux_keys : gset string :=
  list_to_set ["has_viewport_meta"; "has_favicon"; "form_count"; "button_count";
               "navigation_elements"; "has_search"; "has_social_links";
               "has_contact_info"; "mobile_friendly_indicators";
               "accessibility_score"].

(** An href that the link loop passes over: it starts with none of
    [http://], [https://] and [/].  A relative path is of this kind, and
    so is an absolute link with any other scheme, or with the scheme in
    upper case ([mailto:], [ftp://], [HTTPS://]). *)
Definition is_uncounted (href : string) : bool :=
  negb (has_scheme href) && negb (PyStr.startswith "/" href).

(** A network location made of ASCII characters, free of tabs, newlines,
    square brackets and the characters that end a network location.  It
    may hold userinfo before an [@] and a port after a colon. *)
Definition plain_netloc (loc : string) : bool :=
  PyStr.all_chars
    (fun c => (PyStr.code c <? 128)%N
              && negb (UrlParse.unsafe_byte c || UrlParse.netloc_delim c
                       || bool_decide (c ∈ ["["; "]"]%char))) loc.

(** What may follow the network location in a url: nothing, or a path, a
    query or a fragment. *)
Definition url_tail (rest : string) : bool :=
  match rest with
  | "" => true
  | String c _ => UrlParse.netloc_delim c
  end.

(** ** More example pages *)

Module MoreExamples.
Import Bs4 Examples.

(** [<h1>Hi</h1><img alt=logo><label>Name</label><input name=n>
    <div aria-label=menu></div>] *)
Definition accessible_page : soup :=
  [Elem "h1" ∅ [Text "Hi"];
   Elem "img" {["alt" := "logo"]} [];
   Elem "label" ∅ [Text "Name"];
   Elem "input" {["name" := "n"]} [];
   Elem "div" {["aria-label" := "menu"]} []].

(** The SEO signals of [blank_alt_page]. *)
Definition blank_alt_seo : gmap string value :=
  match get_seo_data any_host (scraper_on blank_alt_page) with
  | Ok data => data
  | Raise _ => ∅
  end.

(** The SEO signals of [mixed_links_page]. *)
Definition mixed_links_seo : gmap string value :=
  match get_seo_data any_host (scraper_on mixed_links_page) with
  | Ok data => data
  | Raise _ => ∅
  end.

(** A title, a description and four headings, the markup being one line
    and the third heading being the letter x 120 times:
    [<title> Shop </title><meta name=description content='All we sell'>
    <h1>One</h1><h1>Two</h1><h1>xx...x</h1><h1>Four</h1>] *)
Definition headed_page : soup :=
  [Elem "title" ∅ [Text " Shop "];
   Elem "meta" {["name" := "description"; "content" := "All we sell"]} [];
   Elem "h1" ∅ [Text "One"];
   Elem "h1" ∅ [Text "Two"];
   Elem "h1" ∅ [Text (PyStr.repeat_char "x" 120)];
   Elem "h1" ∅ [Text "Four"]].

(** The SEO signals of [headed_page]. *)
Definition headed_seo : gmap string value :=
  match get_seo_data any_host (scraper_on headed_page) with
  | Ok data => data
  | Raise _ => ∅
  end.

(** A body that [html.parser] rejects, and a parser that raises on it. *)
Definition rejected_html : string := "<![x]>".
Definition rejecting_parser : string -> option soup :=
  fun text => if String.eqb text rejected_html then None else Some [].

(** A response with status 200 and that body, and the scraper that held
    [nav_page] when the fetch received it. *)
Definition rejected_response : Requests.response :=
  Requests.Response 200 rejected_html (String.list_byte_of_string rejected_html) ∅.
Definition rejected_scraper : scraper :=
  Scraper "https://example.com" 15 (Some nav_page) (Some rejected_response)
    (NFloat half_second).

(** [<title> Shop </title><nav>Menu</nav><p>All we sell</p>
    <a href=https://example.com/cart>Cart</a>], the markup being one
    line. *)
Definition shop_html : string :=
  "<title> Shop </title><nav>Menu</nav><p>All we sell</p>"
  ++ "<a href=https://example.com/cart>Cart</a>".
Definition shop_page : soup :=
  [Elem "title" ∅ [Text " Shop "];
   Elem "nav" ∅ [Text "Menu"];
   Elem "p" ∅ [Text "All we sell"];
   Elem "a" {["href" := "https://example.com/cart"]} [Text "Cart"]].

(** The record [scrape_website] returns for [shop_page]. *)
Definition shop_record : gmap string value :=
  match (scrape_website (parser_for shop_html shop_page) soup_markup any_host
           "example.com" (reply 200 shop_html)).2 with
  | Ok (_, res) => res
  | Raise _ => ∅
  end.

End MoreExamples.

(** * Properties *)

(** ** Strings *)

Module PyStrFacts.
Import PyStr.

Lemma app_cons c a b : String c a ++ b = String c (a ++ b).
Proof. reflexivity. Qed.

Lemma app_nil b : "" ++ b = b.
Proof. reflexivity. Qed.

Lemma rstrip_empty p s : rstrip p s = "" <-> all_chars p s = true.
Proof.
  induction s as [|c r IH]; cbn; [done|].
  destruct (rstrip p r) eqn:Er.
  - destruct (p c); cbn; [tauto|]. split; [discriminate|discriminate].
  - split; [discriminate|]. intros [_ H]%andb_prop.
    apply IH in H. discriminate.
Qed.

Lemma rstrip_app p a b :
  rstrip p (a ++ b) = if all_chars p b then rstrip p a else a ++ rstrip p b.
Proof.
  induction a as [|c a IH]; rewrite ?app_cons, ?app_nil; cbn.
  - destruct (all_chars p b) eqn:E; [by apply rstrip_empty|done].
  - rewrite IH. destruct (all_chars p b) eqn:E; [done|].
    destruct (a ++ rstrip p b) eqn:Ea; [|done].
    destruct a; [|discriminate]. rewrite app_nil in Ea.
    apply rstrip_empty in Ea. congruence.
Qed.

(** What [rstrip] takes off is a run of stripped characters. *)
Lemma rstrip_suffix p s :
  exists t, s = rstrip p s ++ t /\ all_chars p t = true.
Proof.
  induction s as [|c r (t & Ht & Hp)]; cbn; [by exists ""|].
  destruct (rstrip p r) eqn:Er.
  - destruct (p c) eqn:Ec.
    + exists (String c r). split; [done|]. cbn. rewrite Ec. cbn.
      by apply rstrip_empty.
    + exists t. rewrite app_cons. by rewrite Ht at 1.
  - exists t. rewrite app_cons. by rewrite Ht at 1.
Qed.

Lemma rstrip_not_endswith p c s :
  p c = true -> endswith_char c (rstrip p s) = false.
Proof.
  intros Hc. induction s as [|a r IH]; cbn; [done|].
  destruct (rstrip p r) eqn:Er.
  - destruct (p a) eqn:Ea; cbn; [done|].
    apply bool_decide_eq_false. congruence.
  - exact IH.
Qed.

Lemma all_chars_repeat p t :
  (forall c, p c = true -> c = "/"%char) -> all_chars p t = true ->
  t = repeat_char "/" (String.length t).
Proof.
  intros Hp. induction t as [|c t IH]; cbn; [done|].
  intros [Hc Ht]%andb_prop. rewrite <- IH by done. by rewrite (Hp c Hc).
Qed.

Lemma prefix_split p s : String.prefix p s = true -> s = p ++ drop (String.length p) s.
Proof.
  revert s. induction p as [|c p IH]; intros s; cbn.
  - by destruct s.
  - destruct s as [|a s]; cbn; [done|].
    destruct (Ascii.ascii_dec c a) as [->|]; [|done].
    intros H. rewrite app_cons. by rewrite <- IH.
Qed.

Lemma prefix_app p s : String.prefix p (p ++ s) = true.
Proof.
  induction p as [|c p IH]; rewrite ?app_cons, ?app_nil; cbn; [by destruct s|].
  by destruct (Ascii.ascii_dec c c).
Qed.
End PyStrFacts.

(** ** Floats *)

Module PyFloatFacts.
Import PyFloat.

Lemma pow2_pos k : 0 < pow2 k.
Proof. unfold pow2. apply Z.pow_pos_nonneg; lia. Qed.

Lemma pow2_nonpos k : k <= 0 -> pow2 k = 1.
Proof. intros H. unfold pow2. replace (Z.max 0 k) with 0 by lia. reflexivity. Qed.

Lemma pow2_nonneg k : 0 <= k -> pow2 k = 2 ^ k.
Proof. intros H. unfold pow2. replace (Z.max 0 k) with k by lia. reflexivity. Qed.

Lemma pow2_succ k : 0 <= k -> pow2 (k + 1) = 2 * pow2 k.
Proof.
  intros H. rewrite !pow2_nonneg by lia. rewrite Z.pow_add_r by lia. lia.
Qed.

Lemma pow2_ge_1 k : 1 <= pow2 k.
Proof. pose proof (pow2_pos k). lia. Qed.

Section RneDiv.
Variables n d : Z.
Hypothesis Hd : 0 < d.

Lemma rne_div_cases :
  rne_div n d = n / d \/ (rne_div n d = n / d + 1 /\ d <= 2 * (n mod d)).
Proof.
  unfold rne_div.
  destruct (Z.ltb_spec (2 * (n mod d)) d); [by left|].
  destruct (Z.ltb_spec d (2 * (n mod d))); [right; lia|].
  destruct (Z.even (n / d)); [by left | right; lia].
Qed.

Lemma rne_div_nonneg : 0 <= n -> 0 <= rne_div n d.
Proof.
  intros Hn. pose proof (Z.div_pos n d Hn Hd).
  destruct rne_div_cases as [-> | [-> _]]; lia.
Qed.

Lemma rne_div_le k : n <= k * d -> rne_div n d <= k.
Proof.
  intros Hk.
  pose proof (Z.div_mod n d ltac:(lia)) as Hdm.
  pose proof (Z.mod_pos_bound n d Hd) as Hm.
  destruct rne_div_cases as [-> | [-> Hr]]; nia.
Qed.

End RneDiv.

Lemma rne_div_exact k d : 0 < d -> rne_div (k * d) d = k.
Proof.
  intros Hd. unfold rne_div.
  rewrite Z.div_mul, Z.mod_mul by lia.
  destruct (Z.ltb_spec (2 * 0) d); [done | lia].
Qed.

(** The exponent chosen by [round_pos] normalises the quotient: it is at
    least [2 ^ 52] on the scale of the result. *)
Lemma round_pos_normal n d :
  0 < n -> 0 < d ->
  let e := fexp (round_pos n d) in
  2 ^ 52 * (d * pow2 e) <= n * pow2 (- e).
Proof.
  intros Hn Hd. unfold round_pos. cbn [fexp].
  set (e0 := Z.log2 n - Z.log2 d - 53).
  assert (H0 : 2 ^ 52 * (d * pow2 e0) <= n * pow2 (- e0)).
  { pose proof (Z.log2_spec n Hn) as [Hn1 Hn2].
    pose proof (Z.log2_spec d Hd) as [Hd1 Hd2].
    pose proof (Z.log2_nonneg n). pose proof (Z.log2_nonneg d).
    rewrite <- Z.add_1_r in Hn2, Hd2.
    destruct (Z.le_gt_cases 0 e0) as [He|He].
    - rewrite (pow2_nonneg e0), (pow2_nonpos (- e0)) by lia.
      assert (2 ^ 52 * (2 ^ (Z.log2 d + 1) * 2 ^ e0) = 2 ^ Z.log2 n) as E.
      { rewrite <- !Z.pow_add_r by lia. f_equal. lia. }
      assert (0 < 2 ^ e0) by (apply Z.pow_pos_nonneg; lia).
      nia.
    - rewrite (pow2_nonpos e0), (pow2_nonneg (- e0)) by lia.
      assert (2 ^ Z.log2 n * 2 ^ (- e0) = 2 ^ 52 * 2 ^ (Z.log2 d + 1)) as E.
      { rewrite <- !Z.pow_add_r by lia. f_equal. lia. }
      assert (0 < 2 ^ (- e0)) by (apply Z.pow_pos_nonneg; lia).
      nia. }
  destruct (Z.leb_spec (2 ^ 53 * (d * pow2 e0)) (n * pow2 (- e0))) as [Ht|Ht];
    [|exact H0].
  destruct (Z.le_gt_cases 0 e0) as [He|He].
  - rewrite pow2_succ by lia.
    rewrite (pow2_nonpos (- e0)) in Ht by lia.
    rewrite (pow2_nonpos (- (e0 + 1))) by lia.
    change (2 ^ 53) with (2 * 2 ^ 52) in Ht. lia.
  - rewrite (pow2_nonpos (e0 + 1)) by lia.
    rewrite (pow2_nonpos e0) in Ht by lia.
    replace (- e0) with (- (e0 + 1) + 1) in Ht by lia.
    rewrite pow2_succ in Ht by lia.
    change (2 ^ 53) with (2 * 2 ^ 52) in Ht. lia.
Qed.

(** A quotient of at most [k] rounds to a float of at most [k], for a
    bound [k] below the mantissa range. *)
Lemma of_ratio_bounds n d k :
  0 <= n -> 0 < d -> n <= k * d -> k < 2 ^ 52 ->
  let f := of_ratio n d in
  0 <= fnum f /\ fexp f <= 0 /\ fnum f <= k * pow2 (- fexp f).
Proof.
  intros Hn Hd Hk Hk52.
  destruct n as [|p|p]; [| |lia].
  - cbn. rewrite pow2_nonpos by lia. lia.
  - cbn [of_ratio].
    pose proof (round_pos_normal (Z.pos p) d ltac:(lia) Hd) as Hnorm.
    cbn zeta in Hnorm.
    assert (Hm : fnum (round_pos (Z.pos p) d)
                 = rne_div (Z.pos p * pow2 (- fexp (round_pos (Z.pos p) d)))
                           (d * pow2 (fexp (round_pos (Z.pos p) d)))) by reflexivity.
    set (f := round_pos (Z.pos p) d) in *. cbn zeta.
    set (e := fexp f) in *.
    pose proof (pow2_pos e). pose proof (pow2_pos (- e)).
    assert (He : e <= 0).
    { destruct (Z.le_gt_cases e 0) as [|He]; [done|].
      rewrite (pow2_nonpos (- e)) in Hnorm by lia.
      assert (d <= d * pow2 e) by nia.
      assert (2 ^ 52 * d <= 2 ^ 52 * (d * pow2 e))
        by (apply Z.mul_le_mono_nonneg_l; lia).
      assert (0 < (2 ^ 52 - k) * d) by (apply Z.mul_pos_pos; lia).
      lia. }
    rewrite (pow2_nonpos e) in Hm by lia. rewrite Z.mul_1_r in Hm.
    rewrite Hm. split; [|split; [done|]].
    + apply rne_div_nonneg; nia.
    + apply rne_div_le; nia.
Qed.

Lemma of_ratio_nonneg n d : 0 <= n -> 0 < d -> 0 <= fnum (of_ratio n d).
Proof.
  intros Hn Hd. destruct n as [|p|p]; [done| |lia].
  unfold of_ratio, round_pos. cbn [fnum fexp].
  match goal with |- 0 <= rne_div (_ * pow2 ?a) (_ * pow2 ?b) =>
    pose proof (pow2_pos a); pose proof (pow2_pos b) end.
  apply rne_div_nonneg; nia.
Qed.

Lemma truediv_pos a b : 0 < b -> truediv a b = Ok (of_ratio a b).
Proof.
  intros Hb. unfold truediv. destruct (Z.eqb_spec b 0) as [|_]; [lia|].
  rewrite Z.sgn_pos, Z.abs_eq, Z.mul_1_r by lia. reflexivity.
Qed.

Lemma truediv_zero a : truediv a 0 = Raise ZeroDivisionError.
Proof. reflexivity. Qed.

(** A float in [[0, j]] times the integer [k] is a float in [[0, j * k]]. *)
Lemma mul_of_int_bounds x j k :
  0 <= fnum x -> fexp x <= 0 -> fnum x <= j * pow2 (- fexp x) ->
  0 <= k -> k < 2 ^ 52 -> j * k < 2 ^ 52 ->
  let y := mul x (of_int k) in
  0 <= fnum y /\ fexp y <= 0 /\ fnum y <= j * k * pow2 (- fexp y).
Proof.
  intros Hx0 Hxe Hxj Hk0 Hk52 Hjk.
  destruct (of_ratio_bounds k 1 k) as (Hi0 & Hie & Hik); [lia..|].
  fold (of_int k) in Hi0, Hie, Hik.
  unfold mul. set (ki := of_int k) in *.
  pose proof (pow2_pos (- fexp x)) as Hpx.
  pose proof (pow2_pos (- fexp ki)) as Hpk.
  assert (Hsplit : pow2 (- (fexp x + fexp ki))
                   = pow2 (- fexp x) * pow2 (- fexp ki)).
  { rewrite !pow2_nonneg by lia. rewrite <- Z.pow_add_r by lia. f_equal. lia. }
  rewrite (pow2_nonpos (fexp x + fexp ki)) by lia. rewrite Z.mul_1_r.
  apply of_ratio_bounds; [nia|nia| |lia].
  rewrite Hsplit.
  transitivity (j * pow2 (- fexp x) * (k * pow2 (- fexp ki))); [|lia].
  apply Z.mul_le_mono_nonneg; lia.
Qed.

Lemma round_le x k :
  fexp x <= 0 -> fnum x <= k * pow2 (- fexp x) -> round x <= k.
Proof.
  intros He Hk. unfold round. rewrite (pow2_nonpos (fexp x)), Z.mul_1_r by lia.
  apply rne_div_le; [apply pow2_pos|done].
Qed.

Lemma round_nonneg x : 0 <= fnum x -> 0 <= round x.
Proof.
  intros H. unfold round. pose proof (pow2_pos (fexp x)).
  apply rne_div_nonneg; [apply pow2_pos|nia].
Qed.

Lemma trunc_le x k :
  0 <= fnum x -> fexp x <= 0 -> fnum x <= k * pow2 (- fexp x) -> trunc x <= k.
Proof.
  intros H0 He Hk. unfold trunc.
  rewrite (pow2_nonpos (fexp x)), Z.mul_1_r by lia.
  pose proof (pow2_pos (- fexp x)).
  rewrite Z.quot_div_nonneg by lia.
  apply Z.div_le_upper_bound; lia.
Qed.

Lemma trunc_nonneg x : 0 <= fnum x -> 0 <= trunc x.
Proof.
  intros H. unfold trunc. pose proof (pow2_pos (fexp x)).
  apply Z.quot_pos; [nia|apply pow2_pos].
Qed.

(** [a / b * k] for counts [0 <= a <= b]: the product stays in [[0, k]]. *)
Lemma ratio_times_bounds a b k :
  0 <= a <= b -> 0 < b -> 0 <= k < 2 ^ 52 ->
  let y := mul (of_ratio a b) (of_int k) in
  0 <= fnum y /\ fexp y <= 0 /\ fnum y <= k * pow2 (- fexp y).
Proof.
  intros Hab Hb Hk.
  destruct (of_ratio_bounds a b 1) as (H0 & He & H1); [lia..|].
  pose proof (mul_of_int_bounds (of_ratio a b) 1 k H0 He H1) as H.
  rewrite Z.mul_1_l in H. apply H; lia.
Qed.

Lemma round_ratio_bounds a b k :
  0 <= a <= b -> 0 < b -> 0 <= k < 2 ^ 52 ->
  exists r, round_ratio a b k = Ok r /\ 0 <= r <= k.
Proof.
  intros Hab Hb Hk. unfold round_ratio. rewrite truediv_pos by done. cbn.
  destruct (ratio_times_bounds a b k Hab Hb Hk) as (H0 & He & H1).
  eexists; split; [reflexivity|]. split; [by apply round_nonneg|by apply round_le].
Qed.

Lemma trunc_ratio_bounds a b k :
  0 <= a <= b -> 0 < b -> 0 <= k < 2 ^ 52 ->
  exists r, trunc_ratio a b k = Ok r /\ 0 <= r <= k.
Proof.
  intros Hab Hb Hk. unfold trunc_ratio. rewrite truediv_pos by done. cbn.
  destruct (ratio_times_bounds a b k Hab Hb Hk) as (H0 & He & H1).
  eexists; split; [reflexivity|]. split; [by apply trunc_nonneg|by apply trunc_le].
Qed.

Lemma trunc_ratio_nonneg a b k :
  0 <= a -> 0 < b -> 0 <= k ->
  exists r, trunc_ratio a b k = Ok r /\ 0 <= r.
Proof.
  intros Ha Hb Hk. unfold trunc_ratio. rewrite truediv_pos by done. cbn.
  eexists; split; [reflexivity|]. apply trunc_nonneg. unfold mul.
  pose proof (of_ratio_nonneg a b Ha Hb).
  pose proof (of_ratio_nonneg k 1 Hk ltac:(lia)). fold (of_int k) in *.
  apply of_ratio_nonneg; [|apply pow2_pos].
  match goal with |- 0 <= _ * pow2 ?e => pose proof (pow2_pos e) end. nia.
Qed.

Lemma of_ratio_same a : 0 < a -> of_ratio a a = mk (2 ^ 52) (-52).
Proof.
  intros Ha. destruct a as [|p|p]; try lia.
  unfold of_ratio, round_pos. rewrite Z.sub_diag.
  change (pow2 (0 - 53)) with 1. change (pow2 (- (0 - 53))) with (2 ^ 53).
  destruct (Z.leb_spec (2 ^ 53 * (Z.pos p * 1)) (Z.pos p * 2 ^ 53)) as [_|]; [|lia].
  change (0 - 53 + 1) with (-52).
  change (pow2 (- -52)) with (2 ^ 52). change (pow2 (-52)) with 1.
  rewrite Z.mul_1_r, (Z.mul_comm (Z.pos p)), rne_div_exact by lia. reflexivity.
Qed.

Lemma round_ratio_full a : 0 < a -> round_ratio a a 100 = Ok 100.
Proof.
  intros Ha. unfold round_ratio. rewrite truediv_pos, of_ratio_same by done.
  vm_compute. reflexivity.
Qed.

End PyFloatFacts.

(** ** URL normalisation *)

Section NormalizeUrl.
Import PyStr PyStrFacts.


Lemma with_scheme_split u :
exists pre, (pre = "http://" \/ pre = "https://") /\ with_scheme u = pre ++ host_part u.
Proof.
unfold with_scheme, has_scheme, host_part, startswith.
destruct (String.prefix "http://" u) eqn:E1; cbn [orb].
- exists "http://". split; [by left|]. by apply prefix_split in E1.
- destruct (String.prefix "https://" u) eqn:E2.
  + exists "https://". split; [by right|]. by apply prefix_split in E2.
  + exists "https://". split; [by right|]. done.
Qed.

Lemma is_slash_eq c : is_slash c = true -> c = "/"%char.
Proof. unfold is_slash. by intros ?%bool_decide_eq_true. Qed.

(** C4 (as amended).  [_normalize_url] prepends [https://] exactly when
  the url starts with neither [http://] nor [https://], and then takes off
  every trailing slash and nothing else.  The result never ends in a slash.
  It starts with [http://] or [https://] exactly when the url, after its
  own prefix if it has one, holds a character other than a slash. *)
Theorem normalize_url_spec (u : string) :
_normalize_url u = PyStr.rstrip is_slash ((if has_scheme u then "" else "https://") ++ u)
/\ (exists k, (if has_scheme u then "" else "https://") ++ u
              = _normalize_url u ++ PyStr.repeat_char "/" k)
/\ PyStr.endswith_char "/" (_normalize_url u) = false
/\ has_scheme (_normalize_url u) = negb (PyStr.all_chars is_slash (host_part u)).
Proof.
assert (E : _normalize_url u = rstrip is_slash (with_scheme u)).
{ unfold _normalize_url, with_scheme. by destruct (has_scheme u). }
fold (with_scheme u). rewrite E. split; [done|]. split; [|split].
- destruct (rstrip_suffix is_slash (with_scheme u)) as (t & Ht & Hp).
  exists (String.length t). rewrite <- (all_chars_repeat is_slash t); [done| |done].
  apply is_slash_eq.
- by apply rstrip_not_endswith.
- destruct (with_scheme_split u) as (pre & Hpre & ->).
  rewrite rstrip_app.
  destruct (all_chars is_slash (host_part u)); cbn [negb].
  + by destruct Hpre as [-> | ->].
  + unfold has_scheme, startswith.
    destruct Hpre as [-> | ->]; [by rewrite prefix_app|].
    rewrite (prefix_app "https://"). apply orb_true_r.
Qed.

End NormalizeUrl.

(** ** Trees, counting and dicts *)

Module Bs4Facts.
Import Bs4.

(** Induction on a tree, with the hypothesis on every child. *)
Lemma node_tree_ind (P : node -> Prop) :
  (forall s, P (Text s)) ->
  (forall s, P (Hidden s)) ->
  (forall nm at_ cs, Forall P cs -> P (Elem nm at_ cs)) ->
  forall n, P n.
Proof.
  intros HT HH HE. fix IH 1. intros [s|s|nm at_ cs]; [apply HT|apply HH|].
  apply HE. induction cs as [|c cs IHcs]; constructor; [apply IH|apply IHcs].
Qed.

Lemma tags_of_decompose_node names n :
  Forall (fun t => name t ∉ names) (flat_map tags_of (decompose_node names n)).
Proof.
  induction n as [s|s|nm at_ cs IH] using node_tree_ind; cbn; [done..|].
  case_bool_decide as Hn; cbn; [done|].
  rewrite app_nil_r. constructor; [done|].
  induction IH as [|c cs Hc _ IHcs]; cbn; [done|].
  rewrite flat_map_app. by apply Forall_app.
Qed.

Lemma tags_decompose_all names doc :
  Forall (fun t => name t ∉ names) (tags (decompose_all names doc)).
Proof.
  unfold tags, decompose_all. induction doc as [|n doc IH]; cbn; [done|].
  rewrite flat_map_app. apply Forall_app. split; [|done].
  apply tags_of_decompose_node.
Qed.

(** After the pruning loop no tag with a pruned name is left to find. *)
Lemma find_all_decomposed n names crit doc :
  n ∈ names -> find_all [n] crit (decompose_all names doc) = [].
Proof.
  intros Hn. unfold find_all.
  pose proof (tags_decompose_all names doc) as H.
  induction H as [|t ts Ht _ IH]; [done|].
  assert (tag_matches [n] crit t = false) as E.
  { unfold tag_matches.
    rewrite (bool_decide_eq_false_2 ([n] = [])) by done.
    case_bool_decide as Hin; [|done].
    apply list_elem_of_singleton in Hin. congruence. }
  cbn [List.filter]. by rewrite E.
Qed.

Lemma find_all_names names doc :
  names <> [] ->
  find_all names [] doc = List.filter (fun t => bool_decide (name t ∈ names)) (tags doc).
Proof.
  intros Hne. unfold find_all. apply filter_ext. intros t. unfold tag_matches.
  rewrite (bool_decide_eq_false_2 (names = [])) by done. cbn.
  apply andb_true_r.
Qed.
End Bs4Facts.

Section Counting.
Context {A : Type} (p : A -> bool).

Lemma llen_nonneg (l : list A) : 0 <= llen l.
Proof. unfold llen. lia. Qed.

Lemma llen_cons (x : A) l : llen (x :: l) = llen l + 1.
Proof. unfold llen. cbn. lia. Qed.

Lemma count_if_bounds (l : list A) : 0 <= count_if p l <= llen l.
Proof.
  unfold count_if, llen. pose proof (filter_length_le p l). lia.
Qed.

Lemma count_if_all (l : list A) : forallb p l = true -> count_if p l = llen l.
Proof.
  intros H. unfold count_if. f_equal. induction l as [|x l IH]; cbn; [done|].
  cbn in H. apply andb_prop in H as [-> H]. f_equal. by apply IH.
Qed.

Lemma forallb_pointwise (q : A -> bool) (l : list A) :
  (forall x, p x = q x) -> forallb p l = forallb q l.
Proof. intros H. induction l as [|x l IH]; cbn; [done|]. by rewrite H, IH. Qed.

Lemma count_if_cons (x : A) l :
  count_if p (x :: l) = (if p x then 1 else 0) + count_if p l.
Proof. unfold count_if, llen. cbn. destruct (p x); cbn; lia. Qed.
End Counting.

Lemma Ok_inj {A} (a b : A) : Ok a = Ok b -> a = b.
Proof. by intros [=]. Qed.

Section DictFacts.
Context {B : Type} (o : option B) (d : gmap string value) (k : string).

(** An optional update of other keys leaves the entry of [k] alone. *)
Lemma lookup_opt_insert k1 (f : B -> value) :
  k1 <> k ->
  match o with Some x => <[k1 := f x]> d | None => d end !! k = d !! k.
Proof. intros H. destruct o; [by rewrite lookup_insert_ne|done]. Qed.

Lemma lookup_opt_insert2 k1 k2 (f g : B -> value) :
  k1 <> k -> k2 <> k ->
  match o with Some x => <[k1 := f x]> (<[k2 := g x]> d) | None => d end !! k
  = d !! k.
Proof. intros H1 H2. destruct o; [by rewrite !lookup_insert_ne|done]. Qed.
End DictFacts.

Ltac lookup_through :=
  repeat first
    [ rewrite lookup_insert_eq
    | rewrite lookup_insert_ne by done
    | rewrite lookup_opt_insert by done
    | rewrite lookup_opt_insert2 by done
    | case_match ].

#[local] Arguments PyStr.contains_any : simpl never.

Section UxFacts.
Import PyFloatFacts.
Variable soup_str : Bs4.soup -> string.

Lemma alt_points_bounds doc : exists a, alt_points doc = Ok a /\ 0 <= a <= 30.
Proof.
  unfold alt_points. destruct (Bs4.find_all ["img"] [] doc) as [|img imgs].
  - exists 0. split; [done|lia].
  - apply trunc_ratio_bounds.
    + apply count_if_bounds.
    + rewrite llen_cons. pose proof (llen_nonneg imgs). lia.
    + split; [lia|done].
Qed.

Lemma label_points_bounds doc : exists l, label_points doc = Ok l /\ 0 <= l <= 30.
Proof.
  unfold label_points.
  destruct (Bs4.find_all ["input"] [] doc) as [|i inputs];
    [exists 0; split; [done|lia]|].
  destruct (Bs4.find_all ["label"] [] doc) as [|l labels];
    [exists 0; split; [done|lia]|].
  destruct (trunc_ratio_nonneg (llen (l :: labels)) (llen (i :: inputs)) 30)
    as (r & -> & Hr).
  - apply llen_nonneg.
  - rewrite llen_cons. pose proof (llen_nonneg inputs). lia.
  - lia.
  - exists (Z.min 30 r). split; [done|lia].
Qed.

Lemma h1_points_cases doc : h1_points doc = 0 \/ h1_points doc = 20.
Proof. unfold h1_points. destruct (Bs4.find _ _ _); auto. Qed.

Lemma aria_points_cases doc : aria_points doc = 0 \/ aria_points doc = 20.
Proof. unfold aria_points. destruct (Bs4.find_all _ _ _); auto. Qed.

Lemma accessibility_score_ok doc : exists sc, accessibility_score doc = Ok sc.
Proof.
  destruct (alt_points_bounds doc) as (a & Ha & _).
  destruct (label_points_bounds doc) as (l & Hl & _).
  unfold accessibility_score. rewrite Ha, Hl. cbn. by eexists.
Qed.

Lemma ux_of_ok doc : exists data, ux_of soup_str doc = Ok data.
Proof.
  destruct (accessibility_score_ok doc) as (sc & Hs).
  unfold ux_of. rewrite Hs. cbn. by eexists.
Qed.

(** C7.  For every document [get_ux_data] returns, and its
    [accessibility_score] is the sum of four additions: at most 30 for the
    share of images with a non-empty [alt], 20 for an [h1], at most 30 for
    the ratio of labels to inputs, and 20 for an [aria-label].  The sum
    lies between 0 and 100. *)
Theorem accessibility_score_range u t doc r lt :
  exists data a l,
    get_ux_data soup_str (Scraper u t (Some doc) r lt) = Ok data
    /\ alt_points doc = Ok a /\ 0 <= a <= 30
    /\ label_points doc = Ok l /\ 0 <= l <= 30
    /\ 0 <= h1_points doc <= 20 /\ 0 <= aria_points doc <= 20
    /\ data !! "accessibility_score"
       = Some (VInt (a + h1_points doc + l + aria_points doc))
    /\ 0 <= a + h1_points doc + l + aria_points doc <= 100.
Proof.
  destruct (alt_points_bounds doc) as (a & Ha & Hab).
  destruct (label_points_bounds doc) as (l & Hl & Hlb).
  pose proof (h1_points_cases doc) as Hh. pose proof (aria_points_cases doc) as Hr.
  assert (Hs : accessibility_score doc = Ok (a + h1_points doc + l + aria_points doc)).
  { unfold accessibility_score. rewrite Ha, Hl. cbn. f_equal. lia. }
  unfold get_ux_data, ux_of. cbn [soup]. rewrite Hs. cbn.
  eexists _, a, l. split; [reflexivity|].
  rewrite lookup_insert_eq. repeat split; try done; lia.
Qed.

(** C10.  For every document [mobile_friendly_indicators] is 30 for a
    viewport meta tag plus 40 for a responsive class name in the markup:
    one of 0, 30, 40 and 70. *)
Theorem mobile_friendly_values u t doc r lt :
  exists data m,
    get_ux_data soup_str (Scraper u t (Some doc) r lt) = Ok data
    /\ data !! "mobile_friendly_indicators" = Some (VInt m)
    /\ m = (if bool_decide (is_Some (Bs4.find ["meta"] [("name", Bs4.Exact "viewport")] doc))
            then 30 else 0)
           + (if PyStr.contains_any responsive_classes (soup_str doc) then 40 else 0)
    /\ (m = 0 \/ m = 30 \/ m = 40 \/ m = 70).
Proof.
  destruct (accessibility_score_ok doc) as (sc & Hs).
  unfold get_ux_data, ux_of. cbn [soup]. rewrite Hs. cbn.
  eexists _, _. split; [reflexivity|].
  rewrite lookup_insert_ne by done. rewrite lookup_insert_eq.
  split; [reflexivity|]. unfold mobile_score.
  split; repeat case_match; lia.
Qed.
End UxFacts.

Section SeoFacts.
Import PyFloatFacts.
Variable valid_bracketed : string -> bool.

Lemma netloc_raises u e : netloc valid_bracketed u = Raise e -> e = ValueError.
Proof.
  unfold netloc, UrlParse.netloc. repeat case_match; congruence.
Qed.

Lemma count_links_raises base hrefs acc e :
  count_links valid_bracketed base hrefs acc = Raise e -> e = ValueError.
Proof.
  revert acc. induction hrefs as [|h hrefs IH]; intros acc; cbn; [done|].
  destruct (has_scheme h).
  - destruct (netloc valid_bracketed h) eqn:E; cbn; [apply IH|].
    intros [= <-]. by apply netloc_raises in E.
  - destruct (PyStr.startswith "/" h); apply IH.
Qed.

(** The loop adds one to the internal count for each internal link and one
    to the external count for each external link, and raises when an
    absolute link does not parse. *)
Lemma count_links_spec base hrefs acc :
  count_links valid_bracketed base hrefs acc =
  if forallb (fun h => negb (has_scheme h) || parses valid_bracketed h) hrefs
  then Ok (acc.1 + count_if (is_internal valid_bracketed base) hrefs,
           acc.2 + count_if (is_external valid_bracketed base) hrefs)
  else Raise ValueError.
Proof.
  revert acc. induction hrefs as [|h hrefs IH]; intros [i e]; cbn [count_links forallb].
  - unfold count_if, llen. cbn. do 2 f_equal; lia.
  - rewrite !count_if_cons.
    assert (Hi : is_internal valid_bracketed base h
                 = if has_scheme h
                   then PyStr.contains base (netloc_of valid_bracketed h)
                   else PyStr.startswith "/" h) by done.
    assert (He : is_external valid_bracketed base h
                 = has_scheme h
                   && negb (PyStr.contains base (netloc_of valid_bracketed h))) by done.
    rewrite Hi, He. clear Hi He. unfold parses at 1, netloc_of.
    destruct (has_scheme h) eqn:Hs; cbn [negb orb andb].
    + destruct (netloc valid_bracketed h) as [d|x] eqn:Hn; cbn.
      * rewrite IH. destruct (forallb _ hrefs); [|done].
        destruct (PyStr.contains base d); cbn; do 2 f_equal; lia.
      * by rewrite (netloc_raises _ _ Hn).
    + destruct (PyStr.startswith "/" h); rewrite IH;
        (destruct (forallb _ hrefs); [|done]); cbn; do 2 f_equal; lia.
Qed.

Lemma nonblank_alt_spec img : nonblank_alt img = has_nonblank_alt img.
Proof.
  unfold nonblank_alt, has_nonblank_alt, Bs4.get_or_empty.
  destruct (Bs4.get img "alt") as [v|]; cbn; [|done]. f_equal.
  unfold PyStr.strip.
  destruct (PyStr.all_chars PyStr.isspace v) eqn:E.
  - apply String.eqb_eq, PyStrFacts.rstrip_empty.
    clear -E. induction v as [|c v IH]; cbn in *; [done|].
    apply andb_prop in E as [-> E]. by apply IH.
  - apply String.eqb_neq. intros H%PyStrFacts.rstrip_empty.
    clear -E H. induction v as [|c v IH]; cbn in *; [done|].
    destruct (PyStr.isspace c) eqn:Ec; cbn in *; [by apply IH|].
    by rewrite Ec in H.
Qed.

(** What [seo_of] returns when it returns: the link counts of the loop
    and the rounded share of images with a non-blank [alt]. *)
Lemma seo_of_ok u doc data :
  seo_of valid_bracketed u doc = Ok data ->
  exists base links r,
    netloc valid_bracketed u = Ok base
    /\ count_links valid_bracketed base (anchor_hrefs doc) (0, 0) = Ok links
    /\ match Bs4.find_all ["img"] [] doc with
       | [] => r = 0
       | images =>
           PyFloat.round_ratio (count_if nonblank_alt images) (llen images) 100 = Ok r
       end
    /\ data !! "internal_links" = Some (VInt links.1)
    /\ data !! "external_links" = Some (VInt links.2)
    /\ data !! "image_alt_ratio" = Some (VInt r).
Proof.
  unfold seo_of. fold (anchor_hrefs doc).
  destruct (netloc valid_bracketed u) as [base|]; [|done]. cbn.
  destruct (count_links _ _ _ _) as [links|] eqn:Hl; [|done]. cbn.
  destruct (Bs4.find_all ["img"] [] doc) as [|img imgs]; cbn.
  - intros <-%Ok_inj. exists base, links, 0.
    split; [done|]. split; [done|].
    repeat split; lookup_through; reflexivity.
  - destruct (PyFloat.round_ratio _ _ _) as [r|] eqn:Hr; [|done]. cbn.
    intros <-%Ok_inj. exists base, links, r.
    split; [done|]. split; [done|]. split; [done|].
    repeat split; lookup_through; reflexivity.
Qed.

Lemma seo_of_total u doc base links :
  netloc valid_bracketed u = Ok base ->
  count_links valid_bracketed base (anchor_hrefs doc) (0, 0) = Ok links ->
  exists data, seo_of valid_bracketed u doc = Ok data.
Proof.
  intros Hb Hl. unfold seo_of. fold (anchor_hrefs doc). rewrite Hb. cbn.
  rewrite Hl. cbn.
  destruct (Bs4.find_all ["img"] [] doc) as [|img imgs] eqn:E; cbn; [by eexists|].
  destruct (round_ratio_bounds (count_if nonblank_alt (img :: imgs))
              (llen (img :: imgs)) 100) as (r & -> & _).
  - apply count_if_bounds.
  - rewrite llen_cons. pose proof (llen_nonneg imgs). lia.
  - split; [lia|done].
  - cbn. by eexists.
Qed.

Lemma seo_of_raises u doc e :
  seo_of valid_bracketed u doc = Raise e -> e = ValueError.
Proof.
  unfold seo_of. fold (anchor_hrefs doc).
  destruct (netloc valid_bracketed u) as [base|] eqn:Hb; cbn;
    [|intros [= <-]; by apply netloc_raises in Hb].
  destruct (count_links _ _ _ _) as [links|] eqn:Hl; cbn;
    [|intros [= <-]; by apply count_links_raises in Hl].
  destruct (seo_of_total u doc base links Hb Hl) as (data & Hd).
  unfold seo_of in Hd. fold (anchor_hrefs doc) in Hd.
  rewrite Hb in Hd. cbn in Hd. rewrite Hl in Hd. cbn in Hd.
  rewrite Hd. done.
Qed.
End SeoFacts.

Section ExtractorFacts.
Import PyFloatFacts.
Variable html_parser : string -> option Bs4.soup.
Variable soup_str : Bs4.soup -> string.
Variable valid_bracketed : string -> bool.

Lemma round_ratio_ok a b k : 0 < b -> exists r, PyFloat.round_ratio a b k = Ok r.
Proof.
  intros Hb. unfold PyFloat.round_ratio. rewrite truediv_pos by done. by eexists.
Qed.

Lemma get_speed_data_ok s : exists data, get_speed_data s = Ok data.
Proof.
  unfold get_speed_data.
  destruct (response s) as [r|]; cbn [mbind result_bind].
  - destruct (Requests.ok r).
    + rewrite truediv_pos by done. cbn. destruct (soup s); by eexists.
    + cbn. destruct (soup s); by eexists.
  - cbn. destruct (soup s); by eexists.
Qed.

Lemma content_of_ok s doc : exists data, content_of s doc = Ok data.
Proof.
  unfold content_of.
  destruct (Bs4.find_all ["p"] [] doc) as [|p ps]; cbn [mbind result_bind].
  - cbn. repeat case_match; try by eexists.
    all: match goal with
         | H : (0 <? ?b) = true |- context [PyFloat.round_ratio ?a ?b ?k] =>
             apply Z.ltb_lt in H;
             destruct (round_ratio_ok a b k H) as (x & ->); cbn; by eexists
         end.
  - rewrite truediv_pos
      by (rewrite llen_cons; pose proof (llen_nonneg ps); lia).
    cbn. repeat case_match; try by eexists.
    all: match goal with
         | H : (0 <? ?b) = true |- context [PyFloat.round_ratio ?a ?b ?k] =>
             apply Z.ltb_lt in H;
             destruct (round_ratio_ok a b k H) as (x & ->); cbn; by eexists
         end.
Qed.

Lemma get_content_data_ok s : exists data, (get_content_data s).2 = Ok data.
Proof.
  unfold get_content_data. destruct (soup s); cbn; [|by eexists].
  apply content_of_ok.
Qed.

Lemma get_ux_data_ok s : exists data, get_ux_data soup_str s = Ok data.
Proof.
  destruct s as [u t [doc|] r lt]; [|by eexists].
  apply ux_of_ok.
Qed.

(** C9.  Division by zero raises [ZeroDivisionError], and no extractor
    raises it on any scraper state: the speed, content and UX extractors
    always return, and the SEO extractor never fails with that error.
    Each division sits behind a test that its divisor is not zero. *)
Theorem no_division_by_zero (s : scraper) :
  (forall a, PyFloat.truediv a 0 = Raise ZeroDivisionError)
  /\ get_seo_data valid_bracketed s <> Raise ZeroDivisionError
  /\ (exists data, get_speed_data s = Ok data)
  /\ (exists data, (get_content_data s).2 = Ok data)
  /\ (exists data, get_ux_data soup_str s = Ok data).
Proof.
  split; [done|]. split; [|split; [|split]].
  - unfold get_seo_data. destruct (soup s); [|done].
    intros H%seo_of_raises. done.
  - apply get_speed_data_ok.
  - apply get_content_data_ok.
  - apply get_ux_data_ok.
Qed.

Lemma dom_speed_defaults lt : dom (speed_defaults lt) = speed_keys.
Proof.
  unfold speed_defaults, speed_keys. rewrite dom_list_to_map_L. reflexivity.
Qed.

(** C8 (as amended).  With no parsed page, [get_seo_data],
    [get_content_data] and [get_ux_data] return the empty mapping, and
    [get_speed_data] returns a mapping with all eight keys, with
    [total_requests] 1 and the three file counts 0.  Its [load_time] is
    the stored load time rounded to two decimals.  When no response is
    stored, or the stored one has a 4xx or 5xx status, the other entries
    keep their defaults.  A scraper with no response and load time 0, as
    it is before any fetch and after a request that raised, gets
    [load_time] 0, [page_size_kb] 0 and both flags false. *)
Theorem no_soup_defaults u t r lt :
  let s := Scraper u t None r lt in
  get_seo_data valid_bracketed s = Ok ∅
  /\ get_content_data s = (s, Ok ∅)
  /\ get_ux_data soup_str s = Ok ∅
  /\ (exists data,
        get_speed_data s = Ok data
        /\ dom data = speed_keys
        /\ data !! "load_time" = Some (VNum (round_number2 lt))
        /\ data !! "total_requests" = Some (VInt 1)
        /\ data !! "css_files" = Some (VInt 0)
        /\ data !! "js_files" = Some (VInt 0)
        /\ data !! "image_count" = Some (VInt 0)
        /\ (response_truthy s = false -> data = speed_defaults lt))
  /\ get_speed_data (Scraper u t None None (NInt 0))
     = Ok (list_to_map
             [("load_time", VInt 0); ("page_size_kb", VInt 0);
              ("total_requests", VInt 1); ("css_files", VInt 0);
              ("js_files", VInt 0); ("image_count", VInt 0);
              ("has_compression", VBool false); ("has_caching", VBool false)]).
Proof.
  cbn zeta. split; [done|]. split; [done|]. split; [done|]. split; [|done].
  unfold get_speed_data, response_truthy. cbn [soup response load_time].
  destruct r as [r|]; cbn [mbind result_bind mret result_ret].
  - destruct (Requests.ok r).
    + rewrite truediv_pos by done. cbn [mbind result_bind mret result_ret].
      eexists. split; [reflexivity|].
      rewrite !dom_insert_L, dom_speed_defaults.
      split; [unfold speed_keys; set_solver|].
      repeat split; try done; lookup_through; reflexivity.
    + eexists. split; [reflexivity|]. rewrite dom_speed_defaults.
      repeat split; reflexivity.
  - eexists. split; [reflexivity|]. rewrite dom_speed_defaults.
    repeat split; reflexivity.
Qed.
End ExtractorFacts.

Section PipelineFacts.
Import PyFloatFacts.
Variable html_parser : string -> option Bs4.soup.
Variable soup_str : Bs4.soup -> string.
Variable valid_bracketed : string -> bool.

(** C5 (as amended).  When the SEO extractor returns on a document,
    [image_alt_ratio] lies between 0 and 100.  It is 0 when the document
    has no [img].  It is 100 when the document has an [img] and every
    [img] has an [alt] that holds a character other than white space. *)
Theorem image_alt_ratio_range (s : scraper) doc data :
  soup s = Some doc ->
  get_seo_data valid_bracketed s = Ok data ->
  exists ratio,
    data !! "image_alt_ratio" = Some (VInt ratio)
    /\ 0 <= ratio <= 100
    /\ (Bs4.find_all ["img"] [] doc = [] -> ratio = 0)
    /\ (Bs4.find_all ["img"] [] doc <> [] ->
        forallb has_nonblank_alt (Bs4.find_all ["img"] [] doc) = true ->
        ratio = 100).
Proof.
  intros Hs Hd. unfold get_seo_data in Hd. rewrite Hs in Hd.
  destruct (seo_of_ok _ _ _ _ Hd) as (base & links & r & _ & _ & Hr & _ & _ & Hl).
  exists r. split; [done|].
  destruct (Bs4.find_all ["img"] [] doc) as [|img imgs] eqn:Ei.
  - subst r. repeat split; try done; lia.
  - assert (Hlen : 0 < llen (img :: imgs))
      by (rewrite llen_cons; pose proof (llen_nonneg imgs); lia).
    destruct (round_ratio_bounds (count_if nonblank_alt (img :: imgs))
                (llen (img :: imgs)) 100) as (r' & Hr' & Hb);
      [apply count_if_bounds|done|split; [lia|done]|].
    rewrite Hr in Hr'. apply Ok_inj in Hr'. subst r'.
    split; [done|]. split; [done|]. intros _ Hall.
    cbn zeta in Hr. rewrite count_if_all in Hr.
    + rewrite round_ratio_full in Hr by done. by apply Ok_inj in Hr.
    + rewrite <- Hall. apply forallb_pointwise, nonblank_alt_spec.
Qed.

(** C6 (as amended).  When the url of the page parses, with network
    location [base], and every href that starts with [http://] or
    [https://] parses, the SEO extractor returns; [internal_links] counts
    the anchors that are internal and [external_links] those that are
    external.  A link that starts with [http://] or [https://] is
    internal when [base] is a substring of its network location, userinfo
    and port included, and external otherwise.  Any other link is
    internal when it starts with a slash, and is counted in neither
    number otherwise: a relative path, and also an absolute link with
    another scheme or with the scheme in upper case. *)
Theorem link_counts (s : scraper) doc base :
  soup s = Some doc ->
  netloc valid_bracketed (url s) = Ok base ->
  forallb (fun h => negb (has_scheme h) || parses valid_bracketed h)
          (anchor_hrefs doc) = true ->
  exists data,
    get_seo_data valid_bracketed s = Ok data
    /\ data !! "internal_links"
       = Some (VInt (count_if (is_internal valid_bracketed base) (anchor_hrefs doc)))
    /\ data !! "external_links"
       = Some (VInt (count_if (is_external valid_bracketed base) (anchor_hrefs doc)))
    /\ (forall href,
          has_scheme href = true ->
          is_internal valid_bracketed base href
          = PyStr.contains base (netloc_of valid_bracketed href)
          /\ is_external valid_bracketed base href
             = negb (PyStr.contains base (netloc_of valid_bracketed href)))
    /\ (forall href,
          has_scheme href = false ->
          is_internal valid_bracketed base href = PyStr.startswith "/" href
          /\ is_external valid_bracketed base href = false).
Proof.
  intros Hs Hb Hp. unfold get_seo_data. rewrite Hs.
  pose proof (count_links_spec valid_bracketed base (anchor_hrefs doc) (0, 0)) as Hc.
  rewrite Hp in Hc. cbn [fst snd] in Hc. rewrite !Z.add_0_l in Hc.
  destruct (seo_of_total _ _ _ _ _ Hb Hc) as (data & Hd).
  exists data. split; [done|].
  destruct (seo_of_ok _ _ _ _ Hd) as (base' & links & r & Hb' & Hc' & _ & Hi & He & _).
  rewrite Hb in Hb'. apply Ok_inj in Hb'. subst base'.
  rewrite Hc in Hc'. apply Ok_inj in Hc'. subst links.
  split; [done|]. split; [done|].
  split; intros href Hh; unfold is_internal, is_external; by rewrite Hh.
Qed.

(** [fetch] never raises, and succeeds exactly on a response with status
    200 whose body the parser turns into a tree. *)
Lemma fetch_result net s :
  exists s' fetched,
    fetch html_parser net s = (s', Ok fetched)
    /\ url s' = url s
    /\ (fetched = true <->
        exists r elapsed doc,
          net = Requests.Returns r elapsed /\ Requests.status_code r = 200
          /\ html_parser (Requests.text r) = Some doc)
    /\ (fetched = true ->
        exists r doc, response s' = Some r /\ Requests.status_code r = 200
                      /\ html_parser (Requests.text r) = Some doc
                      /\ soup s' = Some doc).
Proof.
  unfold fetch. destruct net as [|r elapsed].
  - eexists _, _. split; [reflexivity|]. split; [done|].
    split; [split; [done|by intros (? & ? & ? & ? & ?)]|done].
  - destruct (Z.eqb_spec (Requests.status_code r) 200) as [E|E].
    + destruct (html_parser (Requests.text r)) as [doc|] eqn:Hp.
      * eexists _, _. split; [reflexivity|]. split; [done|]. split.
        -- split; [|done]. intros _. by exists r, elapsed, doc.
        -- intros _. by exists r, doc.
      * eexists _, _. split; [reflexivity|]. split; [done|]. split; [|done].
        split; [done|]. intros (? & ? & ? & [= <- _] & _ & ?). congruence.
    + eexists _, _. split; [reflexivity|]. split; [done|]. split; [|done].
      split; [done|]. intros (? & ? & ? & [= <- _] & ? & _). done.
Qed.

(** A failed fetch gives the error record, with its four empty signal
    sets. *)
Lemma scrape_all_fetch_failed net s s' :
  fetch html_parser net s = (s', Ok false) ->
  scrape_all html_parser soup_str valid_bracketed net s
  = (s', Ok (false, error_record (url s)))
  /\ signal "seo" "title" (error_record (url s)) = None
  /\ error_record (url s) !! "seo" = Some (VDict ∅)
  /\ error_record (url s) !! "speed" = Some (VDict ∅)
  /\ error_record (url s) !! "content" = Some (VDict ∅)
  /\ error_record (url s) !! "ux" = Some (VDict ∅).
Proof.
  intros Hf. destruct (fetch_result net s) as (s1 & b & Hf' & Hu & _).
  rewrite Hf in Hf'. injection Hf' as <- <-.
  unfold scrape_all, bind. rewrite Hf. cbn. unfold lift. rewrite Hu.
  repeat split; reflexivity.
Qed.

(** After a successful fetch the pipeline either hands back the full
    record or lets the [ValueError] of the SEO extractor through. *)
Lemma scrape_all_fetched net s s' :
  fetch html_parser net s = (s', Ok true) ->
  (exists seo speed content ux,
      (scrape_all html_parser soup_str valid_bracketed net s).2
      = Ok (true,
            list_to_map
              [("url", VStr (url s)); ("title", VStr (page_title s'));
               ("seo", VDict seo); ("speed", VDict speed);
               ("content", VDict content); ("ux", VDict ux)])
      /\ get_seo_data valid_bracketed s' = Ok seo
      /\ get_speed_data s' = Ok speed
      /\ get_content_data s' = ((get_content_data s').1, Ok content)
      /\ get_ux_data soup_str (get_content_data s').1 = Ok ux)
  \/ ((scrape_all html_parser soup_str valid_bracketed net s).2 = Raise ValueError
      /\ get_seo_data valid_bracketed s' = Raise ValueError).
Proof.
  intros Hf. destruct (fetch_result net s) as (s1 & b & Hf' & Hu & _).
  rewrite Hf in Hf'. injection Hf' as <- <-.
  unfold scrape_all, bind. rewrite Hf. cbn [negb]. unfold lift, ret.
  destruct (get_seo_data valid_bracketed s') as [seo|e] eqn:Hseo.
  - left. destruct (get_speed_data_ok s') as (speed & ->).
    destruct (get_content_data_ok s') as (content & Hc).
    destruct (get_content_data s') as [s2 rc] eqn:Hcd. cbn in Hc. subst rc.
    destruct (get_ux_data_ok soup_str s2) as (ux & Hux). cbn [fst]. rewrite Hux.
    exists seo, speed, content, ux. rewrite Hu. done.
  - right. unfold get_seo_data in Hseo. destruct (soup s'); [|done].
    apply seo_of_raises in Hseo as ->. done.
Qed.

(** In the pipeline [get_ux_data] reads the tree that [get_content_data]
    has pruned: it finds no [nav] element, whatever the page. *)
Lemma pipeline_navigation_elements net s res :
  (scrape_all html_parser soup_str valid_bracketed net s).2 = Ok (true, res) ->
  signal "ux" "navigation_elements" res = Some (VInt 0).
Proof.
  intros H. destruct (fetch_result net s) as (s1 & b & Hf & Hu & _ & Hs).
  destruct b.
  - destruct (scrape_all_fetched net s s1 Hf)
      as [(seo & speed & content & ux & Hr & _ & _ & _ & Hux)|[Hr _]];
      rewrite Hr in H; [|done].
    apply Ok_inj in H. injection H as <-.
    change (ux !! "navigation_elements" = Some (VInt 0)).
    destruct (Hs eq_refl) as (r & doc & _ & _ & _ & Hsoup).
    unfold get_content_data in Hux. rewrite Hsoup in Hux. cbn in Hux.
    unfold ux_of in Hux.
    destruct (accessibility_score _) as [sc|]; [|done].
    apply Ok_inj in Hux. subst ux. lookup_through.
    all: rewrite Bs4Facts.find_all_decomposed; [done|].
    all: unfold pruned_tags; compute_done.
  - destruct (scrape_all_fetch_failed net s s1 Hf) as [Hr _].
    rewrite Hr in H. done.
Qed.

(** [button_count] is the number of tags whose name is one of the three
    strings handed to [find_all]; a tag named [input] is none of them. *)
Lemma button_count_spec u t doc r lt :
  exists data,
    get_ux_data soup_str (Scraper u t (Some doc) r lt) = Ok data
    /\ data !! "button_count"
       = Some (VInt (count_if (fun tg => bool_decide (Bs4.name tg ∈ button_names))
                              (Bs4.tags doc)))
    /\ "input" ∉ button_names.
Proof.
  destruct (ux_of_ok soup_str doc) as (data & Hd).
  exists data. split; [done|]. split; [|unfold button_names; compute_done].
  revert Hd. unfold ux_of.
  destruct (accessibility_score doc) as [sc|]; [|done].
  intros <-%Ok_inj. lookup_through.
  all: by rewrite Bs4Facts.find_all_names.
Qed.
End PipelineFacts.

(** ** The pipeline on the example pages *)

(** C1.  The pipeline on the page [<nav>Menu</nav><p>one two three</p>]:
    the content signals have [word_count] 3, and the UX signals, computed
    after the content extractor has pruned the shared tree, have
    [navigation_elements] 0, although the parsed page holds one [nav]. *)
Theorem pipeline_prunes_nav soup_str valid_bracketed :
  match
    (scrape_website (Examples.parser_for Examples.nav_html Examples.nav_page)
       soup_str valid_bracketed "example.com"
       (Examples.reply 200 Examples.nav_html)).2
  with
  | Ok (fetched, res) =>
      fetched = true
      /\ signal "content" "word_count" res = Some (VInt 3)
      /\ signal "ux" "navigation_elements" res = Some (VInt 0)
  | Raise _ => False
  end
  /\ llen (Bs4.find_all ["nav"] [] Examples.nav_page) = 1.
Proof. vm_compute. repeat split. Qed.

(** C2.  The pipeline on a page fetched with status 200 whose one anchor
    has the href [http://[]: the [ValueError] of the URL parser leaves
    [scrape_all], which returns no record. *)
Theorem scrape_all_raises_on_unclosed_bracket soup_str valid_bracketed :
  (scrape_website (Examples.parser_for Examples.bracket_html Examples.bracket_page)
     soup_str valid_bracketed "example.com"
     (Examples.reply 200 Examples.bracket_html)).2
  = Raise ValueError.
Proof. vm_compute. reflexivity. Qed.

(** C3.  On a page with one [button], one submit input and one button
    input, [button_count] is 1: the two inputs are not counted. *)
Theorem button_count_misses_inputs soup_str :
  match get_ux_data soup_str (Examples.scraper_on Examples.button_page) with
  | Ok data => data !! "button_count" = Some (VInt 1)
  | Raise _ => False
  end
  /\ llen (Bs4.find_all ["button"] [] Examples.button_page) = 1
  /\ llen (Bs4.find_all ["input"] [("type", Bs4.Exact "submit")] Examples.button_page) = 1
  /\ llen (Bs4.find_all ["input"] [("type", Bs4.Exact "button")] Examples.button_page) = 1.
Proof. vm_compute. repeat split. Qed.

(** C4, counterexample.  The url [https://] has a scheme, and so is not
    prefixed; stripping its slashes leaves [https:], which starts with
    neither [http://] nor [https://].  The empty url ends the same way. *)
Lemma normalize_url_loses_scheme :
  has_scheme "https://" = true
  /\ _normalize_url "https://" = "https:"
  /\ has_scheme (_normalize_url "https://") = false
  /\ _normalize_url "" = "https:"
  /\ has_scheme (_normalize_url "") = false.
Proof. repeat split. Qed.

(** C5, counterexample.  The one image of the page has the non-empty
    [alt] [' '], and [image_alt_ratio] is 0, not 100. *)
Lemma blank_alt_ratio_zero :
  llen (Bs4.find_all ["img"] [] Examples.blank_alt_page) = 1
  /\ forallb has_nonempty_alt (Bs4.find_all ["img"] [] Examples.blank_alt_page) = true
  /\ match get_seo_data Examples.any_host
             (Examples.scraper_on Examples.blank_alt_page) with
     | Ok data =>
         data !! "image_alt_ratio" = Some (VInt 0)
         /\ data !! "image_alt_ratio" <> Some (VInt 100)
     | Raise _ => False
     end.
Proof. vm_compute. repeat split. discriminate. Qed.

(** C6, counterexample.  The page [https://example.com] holds two
    absolute links, with the schemes [ftp] and [https].  Their hosts are
    [other.org] and [evil.org], and the host of the page is a substring of
    neither: both would be external links.  The extractor reports one
    internal link and no external one: the [ftp] link is passed over, and
    the other link has the host of the page in its userinfo, which is part
    of the network location. *)
Lemma absolute_links_miscounted :
  anchor_hrefs Examples.absolute_links_page
  = ["ftp://other.org/f"; "https://example.com@evil.org/login"]
  /\ UrlParse.scheme "ftp://other.org/f" = "ftp"
  /\ UrlParse.scheme "https://example.com@evil.org/login" = "https"
  /\ hostname_of Examples.any_host "https://example.com" = Some "example.com"
  /\ hostname_of Examples.any_host "ftp://other.org/f" = Some "other.org"
  /\ hostname_of Examples.any_host "https://example.com@evil.org/login"
     = Some "evil.org"
  /\ PyStr.contains "example.com" "other.org" = false
  /\ PyStr.contains "example.com" "evil.org" = false
  /\ netloc_of Examples.any_host "https://example.com@evil.org/login"
     = "example.com@evil.org"
  /\ match get_seo_data Examples.any_host
             (Examples.scraper_on Examples.absolute_links_page) with
     | Ok data =>
         data !! "internal_links" = Some (VInt 1)
         /\ data !! "external_links" = Some (VInt 0)
     | Raise _ => False
     end.
Proof. vm_compute. repeat split. Qed.

(** C8, counterexample.  After a fetch answered with status 404 in half a
    second the scraper holds no parsed page, and [get_speed_data] reports a
    [load_time] of 0.5, not 0. *)
Lemma failed_fetch_load_time :
  let s := (fetch (Examples.parser_for "" []) (Examples.reply 404 "")
              (new_scraper "example.com" 15)).1 in
  soup s = None
  /\ get_ux_data Examples.soup_markup s = Ok ∅
  /\ match get_speed_data s with
     | Ok data =>
         data !! "load_time" = Some (VFloat (PyFloat.mk (2 ^ 52) (-53)))
         /\ data !! "load_time" <> Some (VInt 0)
     | Raise _ => False
     end.
Proof. vm_compute. repeat split. discriminate. Qed.

(** The range of [image_alt_ratio] at the page [links_page]. *)
Lemma image_alt_ratio_range_witness :
  exists ratio,
    Examples.links_seo !! "image_alt_ratio" = Some (VInt ratio)
    /\ 0 <= ratio <= 100
    /\ (Bs4.find_all ["img"] [] Examples.links_page = [] -> ratio = 0)
    /\ (Bs4.find_all ["img"] [] Examples.links_page <> [] ->
        forallb has_nonblank_alt (Bs4.find_all ["img"] [] Examples.links_page) = true ->
        ratio = 100).
Proof.
  apply (image_alt_ratio_range Examples.any_host
           (Examples.scraper_on Examples.links_page)
           Examples.links_page Examples.links_seo).
  - reflexivity.
  - exact (eq_refl (Ok Examples.links_seo)
           <: get_seo_data Examples.any_host
                (Examples.scraper_on Examples.links_page)
              = Ok Examples.links_seo).
Defined.

(** The link counts of [mixed_links_page]: three internal links (a path
    from the root, the site itself, and a subdomain with a port), one
    external link, and four links that are not counted (a relative path,
    and the [mailto], [ftp] and upper-case [HTTPS] links). *)
Lemma link_counts_witness :
  exists data,
    get_seo_data Examples.any_host (Examples.scraper_on Examples.mixed_links_page)
    = Ok data
    /\ data !! "internal_links" = Some (VInt 3)
    /\ data !! "external_links" = Some (VInt 1).
Proof.
  destruct (link_counts Examples.any_host
              (Examples.scraper_on Examples.mixed_links_page)
              Examples.mixed_links_page "example.com")
    as (data & Hd & Hi & He & _).
  - reflexivity.
  - vm_compute. reflexivity.
  - vm_compute. reflexivity.
  - exists data. split; [exact Hd|]. split; [exact Hi|exact He].
Defined.

(** The speed signals of a scraper that has not fetched. *)
Lemma no_soup_defaults_witness :
  get_speed_data (Scraper "https://example.com" 15 None None (NInt 0))
  = Ok (speed_defaults (NInt 0)).
Proof.
  destruct (no_soup_defaults Examples.soup_markup Examples.any_host
              "https://example.com" 15 None (NInt 0))
    as (_ & _ & _ & (data & Hd & _ & _ & _ & _ & _ & _ & Hdef) & _).
  rewrite Hd. f_equal. apply Hdef. reflexivity.
Defined.

(** ** Further properties *)

Section MoreStrings.
Import PyStr PyStrFacts.

Lemma rstrip_idempotent p s : rstrip p (rstrip p s) = rstrip p s.
Proof.
  destruct (rstrip_suffix p s) as (t & Ht & Hp).
  pose proof (rstrip_app p (rstrip p s) t) as H.
  rewrite <- Ht, Hp in H. done.
Qed.

Lemma rstrip_fixed p c s :
  p c = true -> (forall a, p a = true -> a = c) ->
  endswith_char c s = false -> rstrip p s = s.
Proof.
  intros Hc Hp. induction s as [|a r IH]; cbn; [done|].
  destruct r as [|b r].
  - cbn. intros Ha%bool_decide_eq_false. destruct (p a) eqn:Ea; [|done].
    by apply Hp in Ea.
  - intros He. rewrite IH by done. done.
Qed.
End MoreStrings.

(** X1.  A url that starts with [http://] or [https://] and does not end in a
    slash comes back from [_normalize_url] as it is. *)
Theorem normalize_url_fixed_point (u : string) :
  has_scheme u = true ->
  PyStr.endswith_char "/" u = false ->
  _normalize_url u = u.
Proof.
  intros Hs He. unfold _normalize_url. rewrite Hs. cbn [negb].
  apply (rstrip_fixed is_slash "/"%char); [done|apply is_slash_eq|done].
Qed.

(** X2.  When the normalised url has a scheme, normalising it again changes
    nothing. *)
Theorem normalize_url_idempotent (u : string) :
  has_scheme (_normalize_url u) = true ->
  _normalize_url (_normalize_url u) = _normalize_url u.
Proof.
  intros Hs. unfold _normalize_url at 1. rewrite Hs. cbn [negb].
  unfold _normalize_url. apply rstrip_idempotent.
Qed.

Module MoreBs4Facts.
Import Bs4 Bs4Facts.

Lemma decompose_node_kept names n :
  Forall (fun t => name t ∉ names) (flat_map tags_of [n]) ->
  decompose_node names n = [n].
Proof.
  induction n as [s|s|nm at_ cs IH] using node_tree_ind; [done..|].
  cbn [flat_map tags_of]. rewrite app_nil_r.
  intros [Hn Hcs]%Forall_cons. cbn in Hn. cbn [decompose_node].
  rewrite bool_decide_eq_false_2 by done. do 2 f_equal.
  induction IH as [|c cs Hc _ IHcs]; [done|].
  cbn [flat_map] in *. apply Forall_app in Hcs as [H1 H2].
  rewrite Hc, IHcs; [done|done|]. cbn [flat_map]. by rewrite app_nil_r.
Qed.

Lemma decompose_all_kept names doc :
  Forall (fun t => name t ∉ names) (tags doc) -> decompose_all names doc = doc.
Proof.
  unfold tags, decompose_all. induction doc as [|n doc IH]; [done|].
  cbn [flat_map]. intros [H1 H2]%Forall_app.
  rewrite decompose_node_kept, IH; [done|done|].
  cbn [flat_map]. by rewrite app_nil_r.
Qed.

(** Pruning a pruned tree changes nothing. *)
Lemma decompose_all_idempotent names doc :
  decompose_all names (decompose_all names doc) = decompose_all names doc.
Proof. apply decompose_all_kept, tags_decompose_all. Qed.

Lemma tags_of_decompose_sublist names n :
  map (fun t => (name t, attrs t)) (flat_map tags_of (decompose_node names n))
  `sublist_of` map (fun t => (name t, attrs t)) (tags_of n).
Proof.
  induction n as [s|s|nm at_ cs IH] using node_tree_ind; [done..|].
  cbn [decompose_node]. case_bool_decide.
  - apply sublist_nil_l.
  - cbn [flat_map tags_of map]. rewrite app_nil_r. cbn [map name attrs].
    apply sublist_skip.
    induction IH as [|c cs Hc _ IHcs]; [done|].
    cbn [flat_map]. rewrite flat_map_app, !map_app. by apply sublist_app.
Qed.

Lemma tags_decompose_sublist names doc :
  map (fun t => (name t, attrs t)) (tags (decompose_all names doc))
  `sublist_of` map (fun t => (name t, attrs t)) (tags doc).
Proof.
  unfold tags, decompose_all. induction doc as [|n doc IH]; [done|].
  cbn [flat_map]. rewrite flat_map_app, !map_app. apply sublist_app; [|done].
  apply tags_of_decompose_sublist.
Qed.

Lemma filter_sublist {A} (p : A -> bool) (l1 l2 : list A) :
  l1 `sublist_of` l2 -> List.filter p l1 `sublist_of` List.filter p l2.
Proof.
  induction 1 as [|x l1 l2 _ IH|x l1 l2 _ IH]; cbn; [done| |].
  - destruct (p x); [by apply sublist_skip|done].
  - destruct (p x); [by apply sublist_cons|done].
Qed.

(** A search only looks at the name and the attributes of a tag. *)
Lemma filter_matches_length names crit (ts : list tag) :
  length (List.filter (tag_matches names crit) ts)
  = length (List.filter (fun na => tag_matches names crit (Tag na.1 na.2 []))
                        (map (fun t => (name t, attrs t)) ts)).
Proof.
  induction ts as [|[nm at_ cs] ts IH]; [done|]. cbn [map List.filter name attrs fst snd].
  change (tag_matches names crit (Tag nm at_ cs))
    with (tag_matches names crit (Tag nm at_ [])).
  destruct (tag_matches names crit (Tag nm at_ [])); cbn; by rewrite IH.
Qed.

(** Pruning never adds a match to a search. *)
Lemma find_all_decompose_le names' crit names doc :
  llen (find_all names' crit (decompose_all names doc))
  <= llen (find_all names' crit doc).
Proof.
  unfold find_all, llen. rewrite !filter_matches_length.
  pose proof (sublist_length _ _
    (filter_sublist (fun na => tag_matches names' crit (Tag na.1 na.2 []))
       _ _ (tags_decompose_sublist names doc))).
  lia.
Qed.
End MoreBs4Facts.

(** X3.  A fetch that fails never touches the parsed tree: the scraper keeps the
    tree of an earlier page.  A request that raised leaves the whole object
    as it was.  A response that arrived is stored, with its latency; its
    status is not 200, or it is 200 and the parser raised on the body. *)
Theorem fetch_failure_keeps_tree html_parser net s s' :
  fetch html_parser net s = (s', Ok false) ->
  soup s' = soup s /\ url s' = url s /\ timeout s' = timeout s
  /\ match net with
     | Requests.Raises => s' = s
     | Requests.Returns r elapsed =>
         (Requests.status_code r = 200 -> html_parser (Requests.text r) = None)
         /\ response s' = Some r /\ load_time s' = NFloat elapsed
     end.
Proof.
  unfold fetch. destruct net as [|r elapsed].
  - intros [= <-]. done.
  - destruct (Z.eqb_spec (Requests.status_code r) 200) as [E|E].
    + destruct (html_parser (Requests.text r)); [done|].
      intros [= <-]. done.
    + intros [= <-]. done.
Qed.

(** Case analysis on the response tests and on the last division of
    [content_of]. *)
Ltac content_cases :=
  repeat first
    [ case_match
    | match goal with
      | |- context [PyFloat.round_ratio ?a ?b ?c] =>
          destruct (PyFloat.round_ratio a b c)
      end ];
  cbn [mbind result_bind mret result_ret]; try done.

Section ContentFacts.
Import MoreBs4Facts PyFloatFacts.

Lemma size_list_to_set_le (l : list string) :
  (size (list_to_set l : gset string) <= length l)%nat.
Proof.
  induction l as [|x l IH]; cbn [list_to_set foldr length]; [by rewrite size_empty|].
  pose proof (size_union_alt ({[x]} : gset string) (list_to_set l)) as H.
  rewrite size_singleton in H.
  assert (list_to_set l ∖ {[x]} ⊆ (list_to_set l : gset string)) as Hsub
    by apply subseteq_difference_l, reflexivity.
  apply subseteq_size in Hsub. lia.
Qed.

(** The state and the signals that [get_content_data] gives on a scraper
    that holds a tree. *)
Lemma get_content_data_some u t doc r lt :
  get_content_data (Scraper u t (Some doc) r lt)
  = (Scraper u t (Some (Bs4.decompose_all pruned_tags doc)) r lt,
     content_of (Scraper u t (Some (Bs4.decompose_all pruned_tags doc)) r lt)
       (Bs4.decompose_all pruned_tags doc)).
Proof. reflexivity. Qed.

(** X4.  Called twice, [get_content_data] gives the same signals and leaves the
    same object as called once. *)
Theorem get_content_data_idempotent (s : scraper) :
  get_content_data (get_content_data s).1 = get_content_data s.
Proof.
  destruct s as [u t [doc|] r lt]; [|done].
  rewrite !get_content_data_some. cbn [fst].
  rewrite get_content_data_some, decompose_all_idempotent. done.
Qed.

(** X5.  [word_count] and [unique_words]: no more distinct words than words. *)
Theorem unique_words_at_most_word_count u t doc r lt :
  exists data w n,
    (get_content_data (Scraper u t (Some doc) r lt)).2 = Ok data
    /\ data !! "word_count" = Some (VInt w)
    /\ data !! "unique_words" = Some (VInt n)
    /\ 0 <= n <= w.
Proof.
  destruct (get_content_data_ok (Scraper u t (Some doc) r lt)) as (data & Hd).
  rewrite get_content_data_some in *. cbn [snd] in *.
  set (doc' := Bs4.decompose_all pruned_tags doc) in *.
  set (words := PyStr.findall_words (PyStr.lower (Bs4.get_text " " true doc'))).
  exists data, (llen words), (Z.of_nat (size (list_to_set words : gset string))).
  split; [done|].
  assert (data !! "word_count" = Some (VInt (llen words))
          /\ data !! "unique_words"
             = Some (VInt (Z.of_nat (size (list_to_set words : gset string)))))
    as [H1 H2].
  { revert Hd. unfold content_of. fold words.
    cbn [response].
    destruct (Bs4.find_all ["p"] [] doc') as [|p ps]; cbn [mbind result_bind mret result_ret].
    - content_cases; intros <-%Ok_inj; split; lookup_through; reflexivity.
    - destruct (PyFloat.truediv _ _); [|done]. cbn [mbind result_bind mret result_ret].
      content_cases; intros <-%Ok_inj; split; lookup_through; reflexivity. }
  split; [done|]. split; [done|].
  pose proof (size_list_to_set_le words). unfold llen. lia.
Qed.
End ContentFacts.

(** Case analysis on the steps of [seo_of] that may raise, for a goal
    [seo_of vb u doc = Ok data -> _]. *)
Ltac seo_cases :=
  unfold seo_of;
  match goal with
  | |- context [netloc ?vb ?u] => destruct (netloc vb u)
  end; [|done];
  cbn [mbind result_bind mret result_ret];
  match goal with
  | |- context [count_links ?a ?b ?c ?d] => destruct (count_links a b c d)
  end; [|done];
  cbn [mbind result_bind mret result_ret];
  match goal with
  | |- context [Bs4.find_all ["img"] [] ?doc] =>
      destruct (Bs4.find_all ["img"] [] doc)
  end;
  cbn [mbind result_bind mret result_ret];
  [|match goal with
    | |- context [PyFloat.round_ratio ?a ?b ?c] =>
        destruct (PyFloat.round_ratio a b c)
    end; [|done];
    cbn [mbind result_bind mret result_ret]];
  intros <-%Ok_inj.

Section SeoMore.
Import PyFloatFacts.
Variable valid_bracketed : string -> bool.

Lemma seo_title_lookup u t doc r lt data :
  seo_of valid_bracketed u doc = Ok data ->
  data !! "title" = Some (VStr (page_title (Scraper u t (Some doc) r lt)))
  /\ data !! "title_length"
     = Some (VInt (PyStr.len (page_title (Scraper u t (Some doc) r lt)))).
Proof.
  change (page_title (Scraper u t (Some doc) r lt))
    with (match Bs4.find ["title"] [] doc with
          | Some tg => Bs4.get_text "" true (Bs4.contents tg)
          | None => ""
          end).
  seo_cases; split; lookup_through; reflexivity.
Qed.

(** X6.  The lengths the SEO signals report are the lengths of the strings they
    report, and the title is the one [scrape_all] puts in its record. *)
Theorem seo_lengths_consistent u t doc r lt data :
  get_seo_data valid_bracketed (Scraper u t (Some doc) r lt) = Ok data ->
  exists description,
    data !! "title" = Some (VStr (page_title (Scraper u t (Some doc) r lt)))
    /\ data !! "title_length"
       = Some (VInt (PyStr.len (page_title (Scraper u t (Some doc) r lt))))
    /\ data !! "meta_description" = Some (VStr description)
    /\ data !! "meta_description_length" = Some (VInt (PyStr.len description)).
Proof.
  unfold get_seo_data. cbn [soup]. intros Hd.
  destruct (seo_title_lookup u t doc r lt data Hd) as [H1 H2].
  exists (match Bs4.find ["meta"] [("name", Bs4.Exact "description")] doc with
          | Some m => Bs4.get_or_empty m "content"
          | None => ""
          end).
  split; [exact H1|]. split; [exact H2|]. clear H1 H2.
  revert Hd. seo_cases; split; lookup_through; reflexivity.
Qed.

Lemma take_length n s : (String.length (PyStr.take n s) <= n)%nat.
Proof.
  unfold PyStr.take. revert s. induction n as [|n IH]; intros [|c s]; cbn; try lia.
  specialize (IH s). lia.
Qed.

(** X7.  [h1_texts] holds the first three headings at most, each cut to 100
    characters. *)
Theorem h1_texts_bounds u t doc r lt data :
  get_seo_data valid_bracketed (Scraper u t (Some doc) r lt) = Ok data ->
  exists texts,
    data !! "h1_texts" = Some (VList (map VStr texts))
    /\ data !! "h1_count" = Some (VInt (llen (Bs4.find_all ["h1"] [] doc)))
    /\ llen texts = Z.min 3 (llen (Bs4.find_all ["h1"] [] doc))
    /\ Forall (fun text => (String.length text <= 100)%nat) texts.
Proof.
  unfold get_seo_data. cbn [soup]. intros Hd.
  exists (map (fun h1 => PyStr.take 100 (Bs4.get_text "" true (Bs4.contents h1)))
              (take 3 (Bs4.find_all ["h1"] [] doc))).
  split; [|split; [|split]].
  - rewrite map_map. revert Hd. seo_cases; lookup_through; reflexivity.
  - revert Hd. seo_cases; lookup_through; reflexivity.
  - unfold llen. rewrite length_map, length_take. lia.
  - apply Forall_map, Forall_forall. intros h1 _. apply take_length.
Qed.

Lemma link_classes_partition base hrefs :
  count_if (is_internal valid_bracketed base) hrefs
  + count_if (is_external valid_bracketed base) hrefs
  + count_if is_uncounted hrefs
  = llen hrefs.
Proof.
  induction hrefs as [|h hrefs IH]; [done|].
  rewrite !count_if_cons, llen_cons, <- IH.
  unfold is_internal, is_external, is_uncounted.
  destruct (has_scheme h); cbn [negb andb].
  - destruct (PyStr.contains base (netloc_of valid_bracketed h)); cbn; lia.
  - destruct (PyStr.startswith "/" h); cbn; lia.
Qed.

(** X8.  Every anchor with an href is counted at most once: the two link counts
    and the number of links the loop passes over, those that start with
    none of [http://], [https://] and a slash, add up to the number of
    anchors. *)
Theorem link_counts_partition u t doc r lt data :
  get_seo_data valid_bracketed (Scraper u t (Some doc) r lt) = Ok data ->
  exists internal external,
    data !! "internal_links" = Some (VInt internal)
    /\ data !! "external_links" = Some (VInt external)
    /\ 0 <= internal /\ 0 <= external
    /\ internal + external + count_if is_uncounted (anchor_hrefs doc)
       = llen (anchor_hrefs doc).
Proof.
  unfold get_seo_data. cbn [soup]. intros Hd.
  destruct (seo_of_ok _ _ _ _ Hd) as (base & links & ratio & _ & Hc & _ & Hi & He & _).
  rewrite count_links_spec in Hc.
  destruct (forallb _ (anchor_hrefs doc)); [|done].
  apply Ok_inj in Hc. subst links. cbn [fst snd] in *. rewrite !Z.add_0_l in *.
  eexists _, _. split; [exact Hi|]. split; [exact He|].
  split; [apply count_if_bounds|]. split; [apply count_if_bounds|].
  apply link_classes_partition.
Qed.

(** X9.  The SEO extractor raises exactly when the url of the page or an
    absolute href does not parse; a relative href is never parsed. *)
Theorem get_seo_data_raises_iff u t doc r lt :
  get_seo_data valid_bracketed (Scraper u t (Some doc) r lt) = Raise ValueError
  <-> parses valid_bracketed u = false
      \/ forallb (fun h => negb (has_scheme h) || parses valid_bracketed h)
                 (anchor_hrefs doc) = false.
Proof.
  unfold get_seo_data. cbn [soup url]. unfold parses at 1.
  destruct (netloc valid_bracketed u) as [base|e] eqn:Hb.
  - pose proof (count_links_spec valid_bracketed base (anchor_hrefs doc) (0, 0)) as Hc.
    destruct (forallb _ (anchor_hrefs doc)) eqn:Hp.
    + destruct (seo_of_total _ _ _ _ _ Hb Hc) as (data & ->).
      split; [done|]. intros [|]; done.
    + split; [by right|]. intros _.
      unfold seo_of. fold (anchor_hrefs doc). rewrite Hb.
      cbn [mbind result_bind]. by rewrite Hc.
  - split; [by left|]. intros _. unfold seo_of. rewrite Hb.
    by rewrite (netloc_raises _ _ _ Hb).
Qed.
End SeoMore.

Section AfterContent.
Import MoreBs4Facts PyFloatFacts.
Variable soup_str : Bs4.soup -> string.
Variable valid_bracketed : string -> bool.

(** The three counts of [get_speed_data] on a scraper that holds a tree. *)
Lemma speed_counts u t doc r lt :
  exists data,
    get_speed_data (Scraper u t (Some doc) r lt) = Ok data
    /\ data !! "css_files"
       = Some (VInt (llen (Bs4.find_all ["link"] [("rel", Bs4.Exact "stylesheet")] doc)))
    /\ data !! "js_files"
       = Some (VInt (llen (Bs4.find_all ["script"] [("src", Bs4.Present)] doc)))
    /\ data !! "image_count" = Some (VInt (llen (Bs4.find_all ["img"] [] doc))).
Proof.
  unfold get_speed_data. cbn [soup response load_time].
  destruct r as [r|]; cbn [mbind result_bind mret result_ret].
  - destruct (Requests.ok r); cbn [mbind result_bind mret result_ret].
    + rewrite truediv_pos by done. cbn [mbind result_bind mret result_ret].
      eexists. split; [reflexivity|]. repeat split; lookup_through; reflexivity.
    + eexists. split; [reflexivity|]. repeat split; lookup_through; reflexivity.
  - eexists. split; [reflexivity|]. repeat split; lookup_through; reflexivity.
Qed.

Lemma ux_navigation_lookup doc data :
  ux_of soup_str doc = Ok data ->
  data !! "navigation_elements" = Some (VInt (llen (Bs4.find_all ["nav"] [] doc))).
Proof.
  unfold ux_of. destruct (accessibility_score doc); [|done].
  intros <-%Ok_inj. lookup_through; reflexivity.
Qed.

(** X10.  Once [get_content_data] has run, the object holds the pruned tree, and
    the other extractors read it: no script is left for [js_files] and
    [structured_data], and no [nav] for [navigation_elements]. *)
Theorem extractors_after_content u t doc r lt :
  let s1 := (get_content_data (Scraper u t (Some doc) r lt)).1 in
  soup s1 = Some (Bs4.decompose_all pruned_tags doc)
  /\ (exists data, get_speed_data s1 = Ok data
                   /\ data !! "js_files" = Some (VInt 0))
  /\ (exists data, get_ux_data soup_str s1 = Ok data
                   /\ data !! "navigation_elements" = Some (VInt 0))
  /\ match get_seo_data valid_bracketed s1 with
     | Ok data => data !! "structured_data" = Some (VBool false)
     | Raise _ => True
     end.
Proof.
  rewrite get_content_data_some. cbn [fst]. split; [done|].
  set (doc' := Bs4.decompose_all pruned_tags doc).
  assert (Hgone : forall n crit, n ∈ pruned_tags -> Bs4.find_all [n] crit doc' = [])
    by (intros; by apply Bs4Facts.find_all_decomposed).
  split; [|split].
  - destruct (speed_counts u t doc' r lt) as (data & Hd & _ & Hjs & _).
    exists data. split; [done|]. rewrite Hjs, Hgone; [done|]. compute_done.
  - destruct (ux_of_ok soup_str doc') as (data & Hd).
    exists data. split; [done|].
    rewrite (ux_navigation_lookup _ _ Hd), Hgone; [done|]. compute_done.
  - unfold get_seo_data. cbn [soup url].
    destruct (seo_of valid_bracketed u doc') as [data|] eqn:Hd; [|done].
    revert Hd. seo_cases; lookup_through; rewrite Hgone; try done; compute_done.
Qed.

(** X11.  Pruning can only lower what the speed extractor counts: after
    [get_content_data] the image and stylesheet counts are at most what they
    were before. *)
Theorem speed_counts_after_content u t doc r lt :
  exists before after images images' sheets sheets',
    get_speed_data (Scraper u t (Some doc) r lt) = Ok before
    /\ get_speed_data (get_content_data (Scraper u t (Some doc) r lt)).1 = Ok after
    /\ before !! "image_count" = Some (VInt images)
    /\ after !! "image_count" = Some (VInt images')
    /\ before !! "css_files" = Some (VInt sheets)
    /\ after !! "css_files" = Some (VInt sheets')
    /\ 0 <= images' <= images /\ 0 <= sheets' <= sheets.
Proof.
  rewrite get_content_data_some. cbn [fst].
  destruct (speed_counts u t doc r lt) as (d & Hd & Hc & _ & Hi).
  destruct (speed_counts u t (Bs4.decompose_all pruned_tags doc) r lt)
    as (d' & Hd' & Hc' & _ & Hi').
  eexists d, d', _, _, _, _. repeat split; try eassumption.
  - apply llen_nonneg.
  - apply find_all_decompose_le.
  - apply llen_nonneg.
  - apply find_all_decompose_le.
Qed.

(** X12.  With no response that counts as true, the content signals that read
    the raw markup keep their defaults. *)
Theorem content_without_response u t doc r lt :
  response_truthy (Scraper u t (Some doc) r lt) = false ->
  exists data,
    (get_content_data (Scraper u t (Some doc) r lt)).2 = Ok data
    /\ data !! "has_blog" = Some (VBool false)
    /\ data !! "has_faq" = Some (VBool false)
    /\ data !! "content_to_code_ratio" = Some (VInt 0).
Proof.
  unfold response_truthy. cbn [response]. intros Hr.
  destruct (get_content_data_ok (Scraper u t (Some doc) r lt)) as (data & Hd).
  exists data. split; [done|].
  revert Hd. rewrite get_content_data_some. cbn [snd]. unfold content_of.
  cbn [response].
  destruct (Bs4.find_all ["p"] [] _) as [|p ps];
    cbn [mbind result_bind mret result_ret];
    [|destruct (PyFloat.truediv _ _); [|done];
      cbn [mbind result_bind mret result_ret]];
    (destruct r as [r|]; [rewrite Hr|]); intros <-%Ok_inj;
    repeat split; lookup_through; reflexivity.
Qed.
End AfterContent.

Section KeySets.
Import PyFloatFacts.
Variable soup_str : Bs4.soup -> string.
Variable valid_bracketed : string -> bool.

Lemma dom_insert_keep (K : gset string) k (v : value) (d : gmap string value) :
  k ∈ K -> dom d = K -> dom (<[k := v]> d) = K.
Proof.
  intros Hk Hd. rewrite dom_insert_L, Hd.
  apply set_eq. intros x. rewrite elem_of_union, elem_of_singleton.
  split; [intros [->|]; done|by right].
Qed.

Lemma dom_opt_keep {B} (K : gset string) (o : option B) k (f : B -> value)
    (d : gmap string value) :
  k ∈ K -> dom d = K ->
  dom (match o with Some x => <[k := f x]> d | None => d end) = K.
Proof. intros Hk Hd. destruct o; [by apply dom_insert_keep|done]. Qed.

Lemma dom_opt_keep2 {B} (K : gset string) (o : option B) k1 k2
    (f g : B -> value) (d : gmap string value) :
  k1 ∈ K -> k2 ∈ K -> dom d = K ->
  dom (match o with Some x => <[k1 := f x]> (<[k2 := g x]> d) | None => d end) = K.
Proof.
  intros H1 H2 Hd. destruct o; [|done].
  apply dom_insert_keep; [done|]. by apply dom_insert_keep.
Qed.

(** Shows [dom d = K] for a dict built from defaults by assignments to
    keys of [K], some of them behind a test. *)
Ltac dom_keep :=
  repeat first
    [ lazymatch goal with
      | |- dom (insert _ _ _) = _ => apply dom_insert_keep; [compute_done|]
      | |- dom (match _ with Some _ => insert _ _ (insert _ _ _) | None => _ end) = _ =>
          apply dom_opt_keep2; [compute_done|compute_done|]
      | |- dom (match _ with Some _ => insert _ _ _ | None => _ end) = _ =>
          apply dom_opt_keep; [compute_done|]
      end
    | case_match ];
  unfold seo_defaults, content_defaults, ux_defaults;
  rewrite dom_list_to_map_L; reflexivity.

(** X13.  Every signal set that an extractor returns for a parsed page holds all
    the keys of its defaults, and no other key. *)
Theorem signal_sets_fully_populated u t doc r lt :
  match get_seo_data valid_bracketed (Scraper u t (Some doc) r lt) with
  | Ok data => dom data = seo_keys
  | Raise _ => True
  end
  /\ (exists data, (get_content_data (Scraper u t (Some doc) r lt)).2 = Ok data
                   /\ dom data = content_keys)
  /\ (exists data, get_ux_data soup_str (Scraper u t (Some doc) r lt) = Ok data
                   /\ dom data = ux_keys).
Proof.
  split; [|split].
  - unfold get_seo_data. cbn [soup url].
    destruct (seo_of valid_bracketed u doc) as [data|] eqn:Hd; [|done].
    revert Hd. seo_cases; dom_keep.
  - destruct (get_content_data_ok (Scraper u t (Some doc) r lt)) as (data & Hd).
    exists data. split; [done|]. revert Hd.
    rewrite get_content_data_some. cbn [snd]. unfold content_of. cbn [response].
    destruct (Bs4.find_all ["p"] [] _) as [|p ps];
      cbn [mbind result_bind mret result_ret];
      [|destruct (PyFloat.truediv _ _); [|done];
        cbn [mbind result_bind mret result_ret]];
      content_cases; intros <-%Ok_inj; dom_keep.
  - destruct (ux_of_ok soup_str doc) as (data & Hd).
    exists data. split; [done|]. revert Hd. unfold ux_of.
    destruct (accessibility_score doc); [|done].
    cbn [mbind result_bind mret result_ret]. intros <-%Ok_inj. dom_keep.
Qed.
End KeySets.

Module MoreFloatFacts.
Import PyFloat PyFloatFacts.

Lemma rne_div_ge n d k : 0 < d -> k * d <= n -> k <= rne_div n d.
Proof.
  intros Hd Hk.
  assert (k <= n / d) by (apply Z.div_le_lower_bound; lia).
  destruct (rne_div_cases n d) as [-> | [-> _]]; lia.
Qed.

(** A quotient of at least [k] rounds to a float of at least [k]. *)
Lemma of_ratio_lower n d k :
  0 < d -> 0 < k -> k * d <= n -> k < 2 ^ 52 ->
  let f := of_ratio n d in
  k * pow2 (- fexp f) <= fnum f * pow2 (fexp f).
Proof.
  intros Hd Hk Hn Hk52.
  assert (0 < n) as Hpos by nia.
  destruct n as [|p|p]; try lia. cbn [of_ratio].
  pose proof (round_pos_normal (Z.pos p) d Hpos Hd) as Hnorm. cbn zeta in Hnorm.
  assert (Hm : fnum (round_pos (Z.pos p) d)
               = rne_div (Z.pos p * pow2 (- fexp (round_pos (Z.pos p) d)))
                         (d * pow2 (fexp (round_pos (Z.pos p) d)))) by reflexivity.
  set (f := round_pos (Z.pos p) d) in *. cbn zeta. set (e := fexp f) in *.
  pose proof (pow2_pos e) as Hpe. pose proof (pow2_pos (- e)) as Hpe'.
  destruct (Z.le_gt_cases e 0) as [He|He].
  - rewrite (pow2_nonpos e) in * by lia. rewrite Z.mul_1_r in *.
    rewrite Hm. apply rne_div_ge; [done|]. nia.
  - rewrite (pow2_nonpos (- e)) in * by lia. rewrite Z.mul_1_r in *.
    assert (2 ^ 52 <= fnum f) as Hbig
      by (rewrite Hm; apply rne_div_ge; [nia|lia]).
    assert (fnum f <= fnum f * pow2 e) by nia. lia.
Qed.

(** An integer below [2 ^ 52] is a float: nothing is lost. *)
Lemma of_int_exact k :
  0 < k -> k < 2 ^ 52 ->
  fexp (of_int k) <= 0 /\ fnum (of_int k) = k * pow2 (- fexp (of_int k)).
Proof.
  intros Hk Hk52.
  destruct (of_ratio_bounds k 1 k) as (_ & He & Hu); [lia..|].
  pose proof (of_ratio_lower k 1 k) as Hl. cbn zeta in Hl.
  fold (of_int k) in *. split; [done|].
  specialize (Hl ltac:(lia) Hk ltac:(lia) Hk52).
  rewrite (pow2_nonpos (fexp (of_int k))) in Hl by done. lia.
Qed.

Lemma pow2_shift a e :
  0 <= a -> 2 ^ a * pow2 (e - a) * pow2 (- e) = pow2 e * pow2 (a - e).
Proof.
  intros Ha.
  destruct (Z.le_gt_cases e 0); [|destruct (Z.le_gt_cases e a)].
  - rewrite (pow2_nonpos (e - a)), (pow2_nonpos e) by lia.
    rewrite !pow2_nonneg by lia. rewrite Z.mul_1_r, Z.mul_1_l.
    rewrite <- Z.pow_add_r by lia. f_equal; lia.
  - rewrite (pow2_nonpos (e - a)), (pow2_nonpos (- e)) by lia.
    rewrite !pow2_nonneg by lia. rewrite !Z.mul_1_r.
    rewrite <- Z.pow_add_r by lia. f_equal; lia.
  - rewrite (pow2_nonpos (a - e)), (pow2_nonpos (- e)) by lia.
    rewrite !pow2_nonneg by lia. rewrite !Z.mul_1_r.
    rewrite <- Z.pow_add_r by lia. f_equal; lia.
Qed.

(** A float of at least 1 times the integer [k] is a float of at least
    [k]. *)
Lemma mul_of_int_lower x k :
  0 <= fnum x -> pow2 (- fexp x) <= fnum x * pow2 (fexp x) ->
  0 < k -> k < 2 ^ 52 ->
  let y := mul x (of_int k) in
  k * pow2 (- fexp y) <= fnum y * pow2 (fexp y).
Proof.
  intros Hx0 Hx1 Hk Hk52.
  destruct (of_int_exact k Hk Hk52) as (Hie & Him).
  unfold mul. set (ki := of_int k) in *.
  set (a := - fexp ki) in *.
  assert (Ha : 0 <= a) by lia.
  replace (fexp x + fexp ki) with (fexp x - a) by lia.
  replace (- (fexp x - a)) with (a - fexp x) by lia.
  rewrite Him. rewrite (pow2_nonneg a) by lia.
  pose proof (pow2_shift a (fexp x) Ha) as Hs.
  pose proof (pow2_pos (fexp x)) as H1. pose proof (pow2_pos (- fexp x)) as H2.
  pose proof (pow2_pos (fexp x - a)) as H3. pose proof (pow2_pos (a - fexp x)) as H4.
  assert (0 < 2 ^ a) as H5 by (apply Z.pow_pos_nonneg; lia).
  apply of_ratio_lower; [done|done| |done].
  set (N := fnum x * (k * 2 ^ a) * pow2 (fexp x - a)).
  assert (k * pow2 (a - fexp x) * pow2 (- fexp x) <= N * pow2 (- fexp x)) as Hle.
  { unfold N.
    replace (fnum x * (k * 2 ^ a) * pow2 (fexp x - a) * pow2 (- fexp x))
      with (fnum x * k * (2 ^ a * pow2 (fexp x - a) * pow2 (- fexp x))) by ring.
    rewrite Hs.
    replace (fnum x * k * (pow2 (fexp x) * pow2 (a - fexp x)))
      with (fnum x * pow2 (fexp x) * (k * pow2 (a - fexp x))) by ring.
    replace (k * pow2 (a - fexp x) * pow2 (- fexp x))
      with (pow2 (- fexp x) * (k * pow2 (a - fexp x))) by ring.
    apply Z.mul_le_mono_nonneg_r; [nia|done]. }
  apply Z.mul_le_mono_pos_r in Hle; done.
Qed.

Lemma trunc_ge x k :
  0 <= k -> k * pow2 (- fexp x) <= fnum x * pow2 (fexp x) -> k <= trunc x.
Proof.
  intros Hk H. unfold trunc.
  pose proof (pow2_pos (fexp x)). pose proof (pow2_pos (- fexp x)).
  rewrite Z.quot_div_nonneg by nia.
  apply Z.div_le_lower_bound; lia.
Qed.

(** [int((a / b) * k)] is at least [k] when [a] is at least [b]. *)
Lemma trunc_ratio_ge a b k :
  0 < b -> b <= a -> 0 < k -> k < 2 ^ 52 ->
  exists r, trunc_ratio a b k = Ok r /\ k <= r.
Proof.
  intros Hb Hab Hk Hk52. unfold trunc_ratio. rewrite truediv_pos by done.
  cbn [mbind result_bind mret result_ret].
  eexists. split; [reflexivity|]. apply trunc_ge; [lia|].
  apply mul_of_int_lower; [|  |done|done].
  - apply of_ratio_nonneg; lia.
  - pose proof (of_ratio_lower a b 1 Hb ltac:(lia) ltac:(lia) ltac:(done)) as H.
    cbn zeta in H. lia.
Qed.

Lemma trunc_ratio_full a : 0 < a -> trunc_ratio a a 30 = Ok 30.
Proof.
  intros Ha. unfold trunc_ratio. rewrite truediv_pos, of_ratio_same by done.
  vm_compute. reflexivity.
Qed.

Lemma round_ratio_none b k : 0 < b -> round_ratio 0 b k = Ok 0.
Proof.
  intros Hb. unfold round_ratio. rewrite truediv_pos by done.
  reflexivity.
Qed.
End MoreFloatFacts.

Section ScoreEdges.
Import PyFloatFacts MoreFloatFacts.
Variable soup_str : Bs4.soup -> string.
Variable valid_bracketed : string -> bool.

Lemma count_if_none {A} (p : A -> bool) (l : list A) :
  forallb (fun x => negb (p x)) l = true -> count_if p l = 0.
Proof.
  induction l as [|x l IH]; [done|]. cbn [forallb].
  intros [Hx Hl]%andb_prop. rewrite count_if_cons, IH by done.
  by destruct (p x).
Qed.

(** X14.  [image_alt_ratio] is 0 when no image has an [alt] that holds a
    character other than white space. *)
Theorem image_alt_ratio_zero u t doc r lt data :
  get_seo_data valid_bracketed (Scraper u t (Some doc) r lt) = Ok data ->
  forallb (fun img => negb (has_nonblank_alt img)) (Bs4.find_all ["img"] [] doc) = true ->
  data !! "image_alt_ratio" = Some (VInt 0).
Proof.
  unfold get_seo_data. cbn [soup]. intros Hd Hnone.
  destruct (seo_of_ok _ _ _ _ Hd) as (base & links & ratio & _ & _ & Hr & _ & _ & Hl).
  rewrite Hl. do 2 f_equal.
  destruct (Bs4.find_all ["img"] [] doc) as [|img imgs]; [done|].
  cbn zeta in Hr. rewrite count_if_none in Hr.
  - rewrite round_ratio_none in Hr; [by apply Ok_inj in Hr|].
    rewrite llen_cons. pose proof (llen_nonneg imgs). lia.
  - rewrite <- Hnone. apply forallb_pointwise. intros x.
    by rewrite nonblank_alt_spec.
Qed.

(** X15.  The accessibility score is exactly 100 when all four conditions hold
    in full: every image has a non-empty [alt], there is an [h1], there
    are at least as many labels as inputs, and some tag has an
    [aria-label]. *)
Theorem accessibility_score_full u t doc r lt :
  Bs4.find_all ["img"] [] doc <> [] ->
  forallb truthy_alt (Bs4.find_all ["img"] [] doc) = true ->
  is_Some (Bs4.find ["h1"] [] doc) ->
  Bs4.find_all ["input"] [] doc <> [] ->
  llen (Bs4.find_all ["input"] [] doc) <= llen (Bs4.find_all ["label"] [] doc) ->
  Bs4.find_all [] [("aria-label", Bs4.Present)] doc <> [] ->
  exists data,
    get_ux_data soup_str (Scraper u t (Some doc) r lt) = Ok data
    /\ data !! "accessibility_score" = Some (VInt 100).
Proof.
  intros Himg Halt [h1 Hh1] Hin Hlab Haria.
  assert (Ha : alt_points doc = Ok 30).
  { unfold alt_points. destruct (Bs4.find_all ["img"] [] doc) as [|i imgs]; [done|].
    rewrite count_if_all by done. apply trunc_ratio_full.
    rewrite llen_cons. pose proof (llen_nonneg imgs). lia. }
  assert (Hl : label_points doc = Ok 30).
  { unfold label_points.
    destruct (Bs4.find_all ["input"] [] doc) as [|i inputs]; [done|].
    destruct (Bs4.find_all ["label"] [] doc) as [|l labels].
    - rewrite llen_cons in Hlab. pose proof (llen_nonneg inputs).
      unfold llen in Hlab at 2. cbn in Hlab. lia.
    - destruct (trunc_ratio_ge (llen (l :: labels)) (llen (i :: inputs)) 30)
        as (p & -> & Hp); [|done|lia|done|].
      + rewrite llen_cons. pose proof (llen_nonneg inputs). lia.
      + cbn [mbind result_bind mret result_ret]. f_equal. lia. }
  assert (Hs : accessibility_score doc = Ok 100).
  { unfold accessibility_score. rewrite Ha, Hl.
    cbn [mbind result_bind mret result_ret].
    unfold h1_points, aria_points. rewrite Hh1.
    destruct (Bs4.find_all [] [("aria-label", Bs4.Present)] doc); done. }
  unfold get_ux_data, ux_of. cbn [soup]. rewrite Hs.
  cbn [mbind result_bind mret result_ret].
  eexists. split; [reflexivity|]. apply lookup_insert_eq.
Qed.
End ScoreEdges.

Module UrlFacts.
Import PyStr UrlParse.

Lemma has_char_absent (p : ascii -> bool) c s :
  p c = false -> all_chars p s = true -> has_char c s = false.
Proof.
  intros Hc. unfold has_char. induction s as [|a s IH]; [done|].
  cbn [all_chars contains String.prefix]. intros [Ha H]%andb_prop.
  destruct (Ascii.ascii_dec c a) as [->|]; [congruence|].
  cbn. by apply IH.
Qed.

End UrlFacts.

Section PipelineMore.
Import PyFloatFacts UrlFacts.
Variable html_parser : string -> option Bs4.soup.
Variable soup_str : Bs4.soup -> string.
Variable valid_bracketed : string -> bool.

(** X16.  When the response has status 200, the parser returns a tree for its
    body, and the url of the scraper and every href of the tree that
    starts with [http://] or [https://] parse, [scrape_all] returns the
    full record with its six entries, and leaves the pruned tree, the
    response and the load time in the object. *)
Theorem scrape_all_full_record r elapsed doc (s : scraper) :
  Requests.status_code r = 200 ->
  html_parser (Requests.text r) = Some doc ->
  parses valid_bracketed (url s) = true ->
  forallb (fun h => negb (has_scheme h) || parses valid_bracketed h)
          (anchor_hrefs doc) = true ->
  exists s' res,
    scrape_all html_parser soup_str valid_bracketed (Requests.Returns r elapsed) s
    = (s', Ok (true, res))
    /\ dom res = list_to_set ["url"; "title"; "seo"; "speed"; "content"; "ux"]
    /\ res !! "url" = Some (VStr (url s))
    /\ soup s' = Some (Bs4.decompose_all pruned_tags doc)
    /\ response s' = Some r
    /\ load_time s' = NFloat elapsed.
Proof.
  intros H200 Hdoc Hu Hh.
  set (s1 := Scraper (url s) (timeout s) (Some doc) (Some r) (NFloat elapsed)).
  assert (Hf : fetch html_parser (Requests.Returns r elapsed) s = (s1, Ok true)).
  { unfold fetch. by rewrite H200, Hdoc. }
  assert (exists base, netloc valid_bracketed (url s) = Ok base) as (base & Hb).
  { revert Hu. unfold parses. destruct (netloc _ _); [by eexists|done]. }
  pose proof (count_links_spec valid_bracketed base (anchor_hrefs doc) (0, 0)) as Hc.
  rewrite Hh in Hc.
  destruct (seo_of_total valid_bracketed (url s) doc base _ Hb Hc) as (seo & Hseo).
  destruct (get_speed_data_ok s1) as (speed & Hspeed).
  set (doc' := Bs4.decompose_all pruned_tags doc).
  set (s2 := Scraper (url s) (timeout s) (Some doc') (Some r) (NFloat elapsed)).
  destruct (content_of_ok s2 doc') as (content & Hcontent).
  destruct (ux_of_ok soup_str doc') as (ux & Hux).
  exists s2. eexists.
  unfold scrape_all, bind, lift, ret. rewrite Hf. cbn [negb].
  change (get_seo_data valid_bracketed s1) with (seo_of valid_bracketed (url s) doc).
  rewrite Hseo, Hspeed.
  change (get_content_data s1) with (s2, content_of s2 doc').
  rewrite Hcontent.
  change (get_ux_data soup_str s2) with (ux_of soup_str doc').
  rewrite Hux. split; [reflexivity|].
  split; [by rewrite dom_list_to_map_L|]. done.
Qed.

(** X17.  The title of the record that [scrape_all] returns is the title of its
    SEO signals, with the length they report. *)
Theorem scrape_all_title_agrees net (s : scraper) res :
  (scrape_all html_parser soup_str valid_bracketed net s).2 = Ok (true, res) ->
  exists title,
    res !! "title" = Some (VStr title)
    /\ signal "seo" "title" res = Some (VStr title)
    /\ signal "seo" "title_length" res = Some (VInt (PyStr.len title)).
Proof.
  intros H. destruct (fetch_result html_parser net s) as (s1 & b & Hf & Hu & _ & Hs).
  destruct b.
  - destruct (scrape_all_fetched html_parser soup_str valid_bracketed net s s1 Hf)
      as [(seo & speed & content & ux & Hr & Hseo & _)|[Hr _]];
      rewrite Hr in H; [|done].
    apply Ok_inj in H. injection H as <-.
    destruct (Hs eq_refl) as (r & doc & _ & _ & _ & Hsoup).
    destruct s1 as [u1 t1 soup1 r1 lt1]. cbn [soup] in Hsoup. subst soup1.
    unfold get_seo_data in Hseo. cbn [soup url] in Hseo.
    destruct (seo_title_lookup valid_bracketed u1 t1 _ r1 lt1 seo Hseo) as [H1 H2].
    eexists. split; [reflexivity|]. split; [exact H1|exact H2].
  - destruct (scrape_all_fetch_failed html_parser soup_str valid_bracketed net s s1 Hf)
      as [Hr _].
    rewrite Hr in H. done.
Qed.
End PipelineMore.

Module NetlocFacts.
Import PyStr PyStrFacts UrlParse UrlFacts.

Lemma contains_app base pre post : contains base (pre ++ base ++ post) = true.
Proof.
  induction pre as [|c pre IH]; rewrite ?app_nil, ?app_cons.
  - destruct (base ++ post) eqn:E; cbn [contains].
    + destruct base; [done|discriminate].
    + rewrite <- E. unfold contains. by rewrite prefix_app.
  - cbn [contains]. rewrite IH. apply orb_true_r.
Qed.

Lemma all_chars_weaken (p q : ascii -> bool) s :
  (forall c, p c = true -> q c = true) -> all_chars p s = true -> all_chars q s = true.
Proof.
  intros Hpq. induction s as [|c s IH]; [done|]. cbn.
  intros [Hc Hs]%andb_prop. by rewrite (Hpq c Hc), IH.
Qed.

Lemma remove_chars_app q h rest :
  all_chars (fun c => negb (q c)) h = true ->
  remove_chars q (h ++ rest) = h ++ remove_chars q rest.
Proof.
  induction h as [|c h IH]; rewrite ?app_nil, ?app_cons; [done|]. cbn.
  intros [Hc Hh]%andb_prop. apply negb_true_iff in Hc. rewrite Hc.
  by rewrite IH.
Qed.

Lemma break_at_app q h rest :
  all_chars (fun c => negb (q c)) h = true ->
  match rest with "" => true | String c _ => q c end = true ->
  (break_at q (h ++ rest)).1 = h.
Proof.
  intros Hh Hr. induction h as [|c h IH]; rewrite ?app_nil, ?app_cons.
  - destruct rest as [|c r]; [done|]. cbn. by rewrite Hr.
  - cbn in Hh. apply andb_prop in Hh as [Hc Hh]. apply negb_true_iff in Hc.
    cbn [break_at]. rewrite Hc. specialize (IH Hh).
    destruct (break_at q (h ++ rest)) as [a b]. cbn in *. by rewrite IH.
Qed.

Lemma url_tail_remove rest :
  url_tail rest = true -> url_tail (remove_chars unsafe_byte rest) = true.
Proof.
  destruct rest as [|c r]; [done|]. cbn [url_tail remove_chars].
  intros Hc. destruct (unsafe_byte c) eqn:Eu; [|done].
  exfalso. revert Hc Eu. unfold netloc_delim, unsafe_byte.
  intros H1%bool_decide_eq_true H2%bool_decide_eq_true.
  repeat (apply elem_of_cons in H1 as [->|H1]; [revert H2; compute_done|]).
  by apply elem_of_nil in H1.
Qed.

(** What [urlsplit] keeps of [http://X] and of [https://X] before it looks
    for the network location. *)
Lemma scheme_taken_off scheme h rest :
  scheme = "http://" \/ scheme = "https://" ->
  drop_scheme
    (remove_chars unsafe_byte (lstrip c0_control_or_space (scheme ++ h ++ rest)))
  = String "/" (String "/" (remove_chars unsafe_byte (h ++ rest))).
Proof. intros [-> | ->]; reflexivity. Qed.

(** The network location of [http(s)://loc tail] is [loc]. *)
Lemma netloc_of_plain valid_bracketed scheme h rest :
  scheme = "http://" \/ scheme = "https://" ->
  plain_netloc h = true -> url_tail rest = true ->
  netloc valid_bracketed (scheme ++ h ++ rest) = Ok h.
Proof.
  intros Hs Hh Hr. unfold plain_netloc in Hh.
  assert (Hu : all_chars (fun c => negb (unsafe_byte c)) h = true).
  { revert Hh. apply all_chars_weaken. intros c.
    destruct (code c <? 128)%N, (unsafe_byte c); done. }
  assert (Hd : all_chars (fun c => negb (netloc_delim c)) h = true).
  { revert Hh. apply all_chars_weaken. intros c.
    destruct (code c <? 128)%N, (unsafe_byte c), (netloc_delim c); done. }
  assert (Hb : all_chars (fun c => negb (bool_decide (c ∈ ["["; "]"]%char))) h = true).
  { revert Hh. apply all_chars_weaken. intros c.
    destruct (code c <? 128)%N, (unsafe_byte c), (netloc_delim c); done. }
  pose proof (url_tail_remove rest Hr) as Hr'.
  pose proof (break_at_app netloc_delim h (remove_chars unsafe_byte rest) Hd Hr') as Hloc.
  assert (Hn : forall X,
             (break_at netloc_delim X).1 = h ->
             match has_char "[" (break_at netloc_delim X).1,
                   has_char "]" (break_at netloc_delim X).1 with
             | false, false => Ok (break_at netloc_delim X).1
             | true, true =>
                 if valid_bracketed (break_at netloc_delim X).1
                 then Ok (break_at netloc_delim X).1 else Raise ValueError
             | _, _ => Raise ValueError
             end = Ok h).
  { intros X ->.
    rewrite (has_char_absent _ "[" h eq_refl Hb).
    by rewrite (has_char_absent _ "]" h eq_refl Hb). }
  unfold netloc.
  rewrite (scheme_taken_off scheme h rest Hs), remove_chars_app by done.
  apply Hn, Hloc.
Qed.
End NetlocFacts.

Section NetlocLinks.
Import NetlocFacts.
Variable valid_bracketed : string -> bool.

(** X18.  The loop compares network locations as text.  A link that starts with
    [http://] or [https://], whose network location is ASCII without
    square brackets and holds [base], the network location of the page,
    anywhere in it, adds one to the internal count and nothing to the
    external one.  The location may be that of the page, a subdomain, a
    longer name, or another host with [base] as its userinfo. *)
Theorem link_holding_page_netloc_is_internal scheme base pre post rest hrefs acc :
  scheme = "http://" \/ scheme = "https://" ->
  plain_netloc (pre ++ base ++ post) = true ->
  url_tail rest = true ->
  count_links valid_bracketed base
    ((scheme ++ (pre ++ base ++ post) ++ rest) :: hrefs) acc
  = count_links valid_bracketed base hrefs (acc.1 + 1, acc.2).
Proof.
  intros Hs Hh Hr. cbn [count_links].
  assert (has_scheme (scheme ++ (pre ++ base ++ post) ++ rest) = true) as ->.
  { unfold has_scheme, PyStr.startswith.
    destruct Hs as [-> | ->]; rewrite PyStrFacts.prefix_app; [done|apply orb_true_r]. }
  unfold netloc.
  rewrite (netloc_of_plain valid_bracketed scheme _ rest Hs Hh Hr).
  cbn [mbind result_bind]. by rewrite contains_app.
Qed.
End NetlocLinks.

(** ** The further properties on the example pages *)

Import Examples MoreExamples.

Lemma normalize_url_fixed_point_witness :
  _normalize_url "https://example.com/a" = "https://example.com/a".
Proof. apply normalize_url_fixed_point; reflexivity. Defined.

Lemma normalize_url_idempotent_witness :
  _normalize_url (_normalize_url "example.com/") = _normalize_url "example.com/".
Proof. apply normalize_url_idempotent. reflexivity. Defined.

Lemma fetch_failure_keeps_tree_witness :
  soup rejected_scraper = soup (scraper_on nav_page)
  /\ url rejected_scraper = url (scraper_on nav_page)
  /\ timeout rejected_scraper = timeout (scraper_on nav_page)
  /\ ((Requests.status_code rejected_response = 200 ->
       rejecting_parser (Requests.text rejected_response) = None)
      /\ response rejected_scraper = Some rejected_response
      /\ load_time rejected_scraper = NFloat half_second).
Proof.
  apply (fetch_failure_keeps_tree rejecting_parser
           (Requests.Returns rejected_response half_second)
           (scraper_on nav_page) rejected_scraper).
  reflexivity.
Defined.

Lemma seo_lengths_consistent_witness :
  (exists description,
     headed_seo !! "title" = Some (VStr (page_title (scraper_on headed_page)))
     /\ headed_seo !! "title_length"
        = Some (VInt (PyStr.len (page_title (scraper_on headed_page))))
     /\ headed_seo !! "meta_description" = Some (VStr description)
     /\ headed_seo !! "meta_description_length"
        = Some (VInt (PyStr.len description)))
  /\ headed_seo !! "title" = Some (VStr "Shop")
  /\ headed_seo !! "title_length" = Some (VInt 4)
  /\ headed_seo !! "meta_description" = Some (VStr "All we sell")
  /\ headed_seo !! "meta_description_length" = Some (VInt 11).
Proof.
  split.
  - apply (seo_lengths_consistent any_host "https://example.com" 15 headed_page
             None (NInt 0) headed_seo).
    exact (eq_refl (Ok headed_seo)
           <: get_seo_data any_host (scraper_on headed_page) = Ok headed_seo).
  - vm_compute. repeat split.
Defined.

Lemma h1_texts_bounds_witness :
  (exists texts,
     headed_seo !! "h1_texts" = Some (VList (map VStr texts))
     /\ headed_seo !! "h1_count"
        = Some (VInt (llen (Bs4.find_all ["h1"] [] headed_page)))
     /\ llen texts = Z.min 3 (llen (Bs4.find_all ["h1"] [] headed_page))
     /\ Forall (fun text => (String.length text <= 100)%nat) texts)
  /\ headed_seo !! "h1_count" = Some (VInt 4)
  /\ headed_seo !! "h1_texts"
     = Some (VList [VStr "One"; VStr "Two"; VStr (PyStr.repeat_char "x" 100)]).
Proof.
  split.
  - apply (h1_texts_bounds any_host "https://example.com" 15 headed_page
             None (NInt 0) headed_seo).
    exact (eq_refl (Ok headed_seo)
           <: get_seo_data any_host (scraper_on headed_page) = Ok headed_seo).
  - vm_compute. repeat split.
Defined.

Lemma link_counts_partition_witness :
  (exists internal external,
     mixed_links_seo !! "internal_links" = Some (VInt internal)
     /\ mixed_links_seo !! "external_links" = Some (VInt external)
     /\ 0 <= internal /\ 0 <= external
     /\ internal + external + count_if is_uncounted (anchor_hrefs mixed_links_page)
        = llen (anchor_hrefs mixed_links_page))
  /\ mixed_links_seo !! "internal_links" = Some (VInt 3)
  /\ mixed_links_seo !! "external_links" = Some (VInt 1)
  /\ List.filter is_uncounted (anchor_hrefs mixed_links_page)
     = ["about.html"; "mailto:a@other.org"; "ftp://example.com/f";
        "HTTPS://example.com/"]
  /\ llen (anchor_hrefs mixed_links_page) = 8.
Proof.
  split.
  - apply (link_counts_partition any_host "https://example.com" 15 mixed_links_page
             None (NInt 0) mixed_links_seo).
    exact (eq_refl (Ok mixed_links_seo)
           <: get_seo_data any_host (scraper_on mixed_links_page)
              = Ok mixed_links_seo).
  - vm_compute. repeat split.
Defined.

Lemma get_seo_data_raises_iff_witness :
  get_seo_data any_host (scraper_on bracket_page) = Raise ValueError.
Proof.
  apply (get_seo_data_raises_iff any_host "https://example.com" 15 bracket_page
           None (NInt 0)).
  right. reflexivity.
Defined.

Lemma content_without_response_witness :
  exists data,
    (get_content_data (scraper_on nav_page)).2 = Ok data
    /\ data !! "has_blog" = Some (VBool false)
    /\ data !! "has_faq" = Some (VBool false)
    /\ data !! "content_to_code_ratio" = Some (VInt 0).
Proof.
  apply (content_without_response "https://example.com" 15 nav_page None (NInt 0)).
  reflexivity.
Defined.

Lemma image_alt_ratio_zero_witness :
  blank_alt_seo !! "image_alt_ratio" = Some (VInt 0).
Proof.
  apply (image_alt_ratio_zero any_host "https://example.com" 15 blank_alt_page
           None (NInt 0) blank_alt_seo).
  - exact (eq_refl (Ok blank_alt_seo)
           <: get_seo_data any_host (scraper_on blank_alt_page) = Ok blank_alt_seo).
  - reflexivity.
Defined.

Lemma accessibility_score_full_witness :
  exists data,
    get_ux_data soup_markup (scraper_on accessible_page) = Ok data
    /\ data !! "accessibility_score" = Some (VInt 100).
Proof.
  apply (accessibility_score_full soup_markup "https://example.com" 15
           accessible_page None (NInt 0)).
  - vm_compute. discriminate.
  - reflexivity.
  - vm_compute. eexists. reflexivity.
  - vm_compute. discriminate.
  - vm_compute. discriminate.
  - vm_compute. discriminate.
Defined.

Lemma scrape_all_full_record_witness :
  exists s' res,
    scrape_all (parser_for shop_html shop_page) soup_markup any_host
      (reply 200 shop_html) (new_scraper "example.com" 15)
    = (s', Ok (true, res))
    /\ dom res = list_to_set ["url"; "title"; "seo"; "speed"; "content"; "ux"]
    /\ res !! "url" = Some (VStr "https://example.com")
    /\ soup s' = Some (Bs4.decompose_all pruned_tags shop_page)
    /\ response s'
       = Some (Requests.Response 200 shop_html
                 (String.list_byte_of_string shop_html) ∅)
    /\ load_time s' = NFloat half_second.
Proof.
  apply (scrape_all_full_record (parser_for shop_html shop_page) soup_markup any_host
           (Requests.Response 200 shop_html (String.list_byte_of_string shop_html) ∅)
           half_second shop_page (new_scraper "example.com" 15)); reflexivity.
Defined.

Lemma scrape_all_title_agrees_witness :
  (exists title,
     shop_record !! "title" = Some (VStr title)
     /\ signal "seo" "title" shop_record = Some (VStr title)
     /\ signal "seo" "title_length" shop_record = Some (VInt (PyStr.len title)))
  /\ shop_record !! "title" = Some (VStr "Shop")
  /\ signal "seo" "title_length" shop_record = Some (VInt 4).
Proof.
  split.
  - apply (scrape_all_title_agrees (parser_for shop_html shop_page) soup_markup
             any_host (reply 200 shop_html) (new_scraper "example.com" 15)
             shop_record).
    exact (eq_refl (Ok (true, shop_record))
           <: (scrape_all (parser_for shop_html shop_page) soup_markup any_host
                 (reply 200 shop_html) (new_scraper "example.com" 15)).2
              = Ok (true, shop_record)).
  - vm_compute. repeat split.
Defined.

Lemma link_holding_page_netloc_is_internal_witness :
  count_links any_host "example.com" ["https://example.com@evil.org/login"] (0, 0)
  = count_links any_host "example.com" [] (0 + 1, 0).
Proof.
  apply (link_holding_page_netloc_is_internal any_host "https://" "example.com"
           "" "@evil.org" "/login" [] (0, 0)); [by right|reflexivity|reflexivity].
Defined.
